(** * review_pr.py: the AI pull-request reviewer, embedded and verified

    The script fetches a pull request's diff and file list, builds a prompt,
    asks a chat-completion model for a review and posts the answer as a
    comment.  This file embeds the functions of [review_pr.py]:

    - Python [str] values are lists of Unicode code points, so that slicing
      ([diff[:50000]]) and [len] count what Python counts;
    - the prompt builder is a plain function of the values of its arguments,
      and is embedded a second time over a heap of list and dict objects,
      where its file list is passed by reference;
    - the functions that talk to the outside (HTTP, the GitHub and OpenAI
      clients, [print], [sys.exit]) are programs of a small monad that threads
      the trace of external calls and distinguishes a normal return, a raised
      [Exception] and [SystemExit]. *)

From Stdlib Require Import Ascii String DecimalString.
From Stdlib Require Import List ZArith NArith QArith Lia Bool.
From Stdlib Require DecimalPos.
Import ListNotations.

Open Scope Z_scope.
Open Scope list_scope.

(** ** Python strings *)

(** A character is a Unicode code point. *)
Definition char := N.

(** A Python [str]. *)
Definition pystr := list char.

(** An ASCII literal of the source, as code points. *)
Definition lit (s : string) : pystr :=
  map N_of_ascii (list_ascii_of_string s).

(** The newline character of the (LF-terminated) source file. *)
Definition nl : pystr := [10%N].

Definition char_eqb (a b : char) : bool := N.eqb a b.

(** [s.startswith(p)]. *)
Fixpoint startswith (s p : pystr) {struct p} : bool :=
  match p with
  | [] => true
  | c :: p' =>
      match s with
      | [] => false
      | d :: s' => char_eqb d c && startswith s' p'
      end
  end.

(** [sep.join(parts)]. *)
Fixpoint join (sep : pystr) (parts : list pystr) : pystr :=
  match parts with
  | [] => []
  | x :: rest =>
      match rest with
      | [] => x
      | _ :: _ => x ++ sep ++ join sep rest
      end
  end.

(** [str(n)] for an [int]: decimal digits, with a minus sign when negative. *)
Definition str_of_int (n : Z) : pystr :=
  lit (NilZero.string_of_int (Z.to_int n)).

(** [x or d] where [x] is a [str] or [None]: [None] and the empty string are
    falsy. *)
Definition str_or (x : option pystr) (d : pystr) : pystr :=
  match x with
  | Some (c :: s) => c :: s
  | Some [] => d
  | None => d
  end.

(** ** The prompt builder *)

(** One element of the changed-files list returned by the GitHub API, with the
    four keys [create_review_prompt] reads. *)
Record ChangedFile := {
  filename : pystr;
  status : pystr;
  additions : Z;
  deletions : Z
}.

(** The two limits written as literals in [create_review_prompt]. *)
Definition file_limit : nat := 20.
Definition diff_limit : nat := Z.to_nat 50000.

(** The f-string of the list comprehension:
    [f"- {f['filename']} ({f['status']}, +{f['additions']}/-{f['deletions']})"]. *)
Definition file_line (f : ChangedFile) : pystr :=
  lit "- " ++ filename f ++ lit " (" ++ status f ++ lit ", +"
    ++ str_of_int (additions f) ++ lit "/-" ++ str_of_int (deletions f)
    ++ lit ")".

(** [f"\n... and {len(changed_files) - 20} more files"]. *)
Definition more_files_suffix (changed_files : list ChangedFile) : pystr :=
  nl ++ lit "... and "
     ++ str_of_int (Z.of_nat (length changed_files) - 20)
     ++ lit " more files".

(** The local [file_summary] after the [if]. *)
Definition file_summary (changed_files : list ChangedFile) : pystr :=
  let file_summary :=
    join nl (map file_line (firstn file_limit changed_files)) in
  if (20 <? Z.of_nat (length changed_files))
  then file_summary ++ more_files_suffix changed_files
  else file_summary.

(** The fixed text of the template after the diff's closing fence. *)
Definition review_instructions : pystr :=
  lit "Please provide a comprehensive code review focusing on:" ++ nl
  ++ lit "1. Code quality and best practices" ++ nl
  ++ lit "2. Potential bugs or security issues" ++ nl
  ++ lit "3. Performance considerations" ++ nl
  ++ lit "4. Code style and consistency" ++ nl
  ++ lit "5. Documentation and comments" ++ nl
  ++ lit "6. Test coverage (if applicable)" ++ nl
  ++ nl
  ++ lit "Format your review as:" ++ nl
  ++ lit "- **Summary**: Brief overview" ++ nl
  ++ lit "- **Issues Found**: List of issues with severity (Critical/High/Medium/Low)" ++ nl
  ++ lit "- **Suggestions**: Actionable improvement suggestions" ++ nl
  ++ lit "- **Positive Feedback**: What was done well" ++ nl
  ++ nl
  ++ lit "Be constructive, specific, and provide code examples when helpful.".

(** [create_review_prompt(diff, changed_files, pr_title, pr_body)]: the
    f-string template, line by line.  A title or body is a [str] or [None]. *)
Definition create_review_prompt (diff : pystr) (changed_files : list ChangedFile)
  (pr_title pr_body : option pystr) : pystr :=
  let file_summary := file_summary changed_files in
  lit "You are an expert code reviewer. Review the following pull request changes and provide constructive feedback." ++ nl
  ++ nl
  ++ lit "Pull Request Title: " ++ str_or pr_title (lit "N/A") ++ nl
  ++ lit "Pull Request Description: " ++ str_or pr_body (lit "N/A") ++ nl
  ++ nl
  ++ lit "Changed Files:" ++ nl
  ++ file_summary ++ nl
  ++ nl
  ++ lit "Diff:" ++ nl
  ++ lit "```" ++ nl
  ++ firstn diff_limit diff ++ lit "  # Limit diff size to avoid token limits" ++ nl
  ++ lit "```" ++ nl
  ++ nl
  ++ review_instructions.

(** The default value of the keyword arguments [pr_title] and [pr_body]: the
    empty string. *)
Definition default_arg : option pystr := Some [].

(** ** Objects of the client libraries *)

(** An instance of Python's [Exception]; [exc_str] is what [str(e)] gives.
    [SystemExit] is not an [Exception] and is an outcome of its own below. *)
Record pyexc := {
  exc_class : pystr;
  exc_str : pystr
}.

(** The result of a library call: it raises or it returns. *)
Definition reply (A : Type) : Type := (pyexc + A)%type.

(** A [requests.Response]: the fields and methods the script touches.  [json]
    is the result of [response.json()], which raises on a body that is not
    JSON. *)
Record Response := {
  status_code : Z;
  reason : pystr;
  resp_url : pystr;
  text : pystr;
  json : reply (list ChangedFile)
}.

(** The OpenAI client and the parts of a chat completion the script reads. *)
Record OpenAIClient := { api_key : pystr }.
Record Message := { role : pystr; content : pystr }.
Record Choice := { message_content : option pystr }.
Record ChatCompletion := { choices : list Choice }.

(** The PyGithub objects: the client, a repository and a pull request with its
    title and (nullable) body. *)
Record GithubClient := { gh_token : pystr }.
Record Repository := { full_name : pystr }.
Record PullRequest := {
  number : Z;
  title : pystr;
  body : option pystr
}.

(** The parsed command line ([args] of [main]); [--pr-sha] has no default, so
    it is [None] when the flag is not given. *)
Record Args := {
  args_openai_api_key : pystr;
  args_github_token : pystr;
  args_openai_model : pystr;
  args_pr_number : pystr;
  args_repo : pystr;
  args_pr_sha : option pystr
}.

(** ** External events and the environment *)

(** What the script does to the outside world, in order. *)
Inductive Event :=
| EPrint (line : pystr)
| ETraceback (e : pyexc)
| EOpenAI (key : pystr)
| ERequestsGet (url : pystr) (headers : list (pystr * pystr))
| EGithub (token : pystr)
| EGetRepo (g : GithubClient) (name : pystr)
| EGetPull (r : Repository) (n : Z)
| ECreateIssueComment (pr : PullRequest) (comment_body : pystr) (posted : bool)
| EChatCreate (client : OpenAIClient) (model : pystr) (messages : list Message)
    (temperature : Q) (max_tokens : Z).

Definition Trace := list Event.

(** How the outside world answers: every answer may depend on the history of
    events so far, so a second identical call may be answered differently.
    [env_int] is the builtin [int()] on a [str] ([ValueError] on failure). *)
Record Env := {
  env_OpenAI : Trace -> pystr -> reply OpenAIClient;
  env_requests_get : Trace -> pystr -> list (pystr * pystr) -> reply Response;
  env_Github : Trace -> pystr -> reply GithubClient;
  env_get_repo : Trace -> GithubClient -> pystr -> reply Repository;
  env_get_pull : Trace -> Repository -> Z -> reply PullRequest;
  env_create_issue_comment : Trace -> PullRequest -> pystr -> reply unit;
  env_chat_create :
    Trace -> OpenAIClient -> pystr -> list Message -> Q -> Z -> reply ChatCompletion;
  env_int : pystr -> reply Z
}.

(** ** The monad of the script's effects *)

(** How a piece of Python ends: it returns, it raises an [Exception], or it
    raises [SystemExit] with an exit status. *)
Inductive outcome (A : Type) :=
| Ret (a : A)
| Raise (e : pyexc)
| Exit (code : Z).
Arguments Ret {A} a.
Arguments Raise {A} e.
Arguments Exit {A} code.

(** A program maps the history of events to its outcome and the events it
    emitted. *)
Definition M (A : Type) : Type := Trace -> outcome A * Trace.

Definition ret {A} (a : A) : M A := fun _ => (Ret a, []).

Definition bind {A B} (c : M A) (k : A -> M B) : M B :=
  fun h =>
    match c h with
    | (Ret a, evs) => let '(o, evs') := k a (h ++ evs) in (o, evs ++ evs')
    | (Raise e, evs) => (Raise e, evs)
    | (Exit n, evs) => (Exit n, evs)
    end.

Notation "x <- c1 ;; c2" := (bind c1 (fun x => c2))
  (at level 61, c1 at next level, right associativity).
Notation "c1 ;; c2" := (bind c1 (fun _ => c2))
  (at level 61, right associativity).

(** [raise e]. *)
Definition raise {A} (e : pyexc) : M A := fun _ => (Raise e, []).

(** [sys.exit(code)]: raises [SystemExit]. *)
Definition sys_exit {A} (code : Z) : M A := fun _ => (Exit code, []).

(** [try: body / except Exception as e: handler e].  [SystemExit] is not an
    [Exception]: it passes through. *)
Definition try_except {A} (body : M A) (handler : pyexc -> M A) : M A :=
  fun h =>
    match body h with
    | (Raise e, evs) => let '(o, evs') := handler e (h ++ evs) in (o, evs ++ evs')
    | (Ret a, evs) => (Ret a, evs)
    | (Exit n, evs) => (Exit n, evs)
    end.

(** An external call: the event is recorded and the environment's answer is
    returned or raised. *)
Definition call {A} (ev : Event) (answer : Trace -> reply A) : M A :=
  fun h =>
    match answer h with
    | inl e => (Raise e, [ev])
    | inr a => (Ret a, [ev])
    end.

(** [print(line)]. *)
Definition print (line : pystr) : M unit := fun _ => (Ret tt, [EPrint line]).

(** [traceback.print_exc()] inside an [except] clause handling [e]. *)
Definition print_exc (e : pyexc) : M unit := fun _ => (Ret tt, [ETraceback e]).

(** The exit status of the process when the script's [main()] ends with [o]:
    0 on return, the status of [SystemExit], 1 on an uncaught exception. *)
Definition exit_code {A} (o : outcome A) : Z :=
  match o with
  | Ret _ => 0
  | Raise _ => 1
  | Exit code => code
  end.

(** ** requests *)

(** The [HTTPError] that [Response.raise_for_status] builds in the requests
    library; [kind] is [" Client Error: "] or [" Server Error: "]. *)
Definition HTTPError (kind : pystr) (r : Response) : pyexc :=
  {| exc_class := lit "HTTPError";
     exc_str := str_of_int (status_code r) ++ kind ++ reason r
                  ++ lit " for url: " ++ resp_url r |}.

(** [response.raise_for_status()] as the requests library defines it: an
    [HTTPError] for a client error (400 to 499) or a server error (500 to
    599), and nothing for any other status. *)
Definition raise_for_status (r : Response) : M unit :=
  if (400 <=? status_code r) && (status_code r <? 500)
  then raise (HTTPError (lit " Client Error: ") r)
  else if (500 <=? status_code r) && (status_code r <? 600)
  then raise (HTTPError (lit " Server Error: ") r)
  else ret tt.

(** [response.json()]. *)
Definition response_json (r : Response) : M (list ChangedFile) :=
  match json r with
  | inl e => raise e
  | inr v => ret v
  end.

(** ** The functions of review_pr.py *)

(** The non-ASCII characters of the script's messages, by code point. *)
Definition robot : pystr := [129302%N].
Definition check_mark : pystr := [9989%N].
Definition clipboard : pystr := [128203%N].
Definition inbox_tray : pystr := [128229%N].
Definition file_folder : pystr := [128193%N].
Definition memo : pystr := [128221%N].
Definition bar_chart : pystr := [128202%N].
Definition cross_mark : pystr := [10060%N].
Definition speech_balloon : pystr := [128172%N].

(** The system message of [review_with_ai]. *)
Definition system_message : Message :=
  {| role := lit "system";
     content := lit "You are an expert software engineer and code reviewer with deep knowledge of best practices, security, performance, and code quality." |}.

Definition user_message (prompt : pystr) : Message :=
  {| role := lit "user"; content := prompt |}.

(** The f-string [comment_body] of [post_pr_comment]. *)
Definition comment_body_of (review_body : pystr) : pystr :=
  lit "## " ++ robot ++ lit " AI Code Review" ++ nl
  ++ nl
  ++ review_body ++ nl
  ++ nl
  ++ lit "---" ++ nl
  ++ lit "*This review was generated automatically by AI PR Reviewer*".

(** [IndexError] of [choices[0]] on an empty list. *)
Definition IndexError : pyexc :=
  {| exc_class := lit "IndexError"; exc_str := lit "list index out of range" |}.

(** [AttributeError] of [review.startswith] when [review] is [None]. *)
Definition AttributeError_startswith : pyexc :=
  {| exc_class := lit "AttributeError";
     exc_str := lit "'NoneType' object has no attribute 'startswith'" |}.

Section Script.

Variable env : Env.

(** The library calls, each recorded as an event. *)
Definition requests_get (url : pystr) (headers : list (pystr * pystr)) : M Response :=
  call (ERequestsGet url headers) (fun h => env_requests_get env h url headers).

Definition OpenAI (key : pystr) : M OpenAIClient :=
  call (EOpenAI key) (fun h => env_OpenAI env h key).

Definition Github (token : pystr) : M GithubClient :=
  call (EGithub token) (fun h => env_Github env h token).

Definition get_repo (g : GithubClient) (name : pystr) : M Repository :=
  call (EGetRepo g name) (fun h => env_get_repo env h g name).

Definition get_pull (r : Repository) (n : Z) : M PullRequest :=
  call (EGetPull r n) (fun h => env_get_pull env h r n).

(** [pr.create_issue_comment(body)]: the comment exists when the call returns. *)
Definition create_issue_comment (pr : PullRequest) (comment_body : pystr) : M unit :=
  fun h =>
    match env_create_issue_comment env h pr comment_body with
    | inl e => (Raise e, [ECreateIssueComment pr comment_body false])
    | inr _ => (Ret tt, [ECreateIssueComment pr comment_body true])
    end.

Definition chat_completions_create (client : OpenAIClient) (model : pystr)
  (messages : list Message) (temperature : Q) (max_tokens : Z) : M ChatCompletion :=
  call (EChatCreate client model messages temperature max_tokens)
       (fun h => env_chat_create env h client model messages temperature max_tokens).

(** The builtin [int(s)]. *)
Definition int (s : pystr) : M Z :=
  match env_int env s with
  | inl e => raise e
  | inr n => ret n
  end.

(** [get_pr_diff(github_token, repo_full_name, pr_number)]. *)
Definition get_pr_diff (github_token repo_full_name pr_number : pystr) : M pystr :=
  let headers :=
    [ (lit "Authorization", lit "token " ++ github_token);
      (lit "Accept", lit "application/vnd.github.v3.diff") ] in
  let url :=
    lit "https://api.github.com/repos/" ++ repo_full_name ++ lit "/pulls/"
      ++ pr_number in
  response <- requests_get url headers ;;
  raise_for_status response ;;
  ret (text response).

(** [get_changed_files(github_token, repo_full_name, pr_number)]. *)
Definition get_changed_files (github_token repo_full_name pr_number : pystr)
  : M (list ChangedFile) :=
  let headers :=
    [ (lit "Authorization", lit "token " ++ github_token);
      (lit "Accept", lit "application/vnd.github.v3+json") ] in
  let url :=
    lit "https://api.github.com/repos/" ++ repo_full_name ++ lit "/pulls/"
      ++ pr_number ++ lit "/files" in
  response <- requests_get url headers ;;
  raise_for_status response ;;
  response_json response.

(** [response.choices[0]]. *)
Definition first_choice (response : ChatCompletion) : M Choice :=
  match choices response with
  | [] => raise IndexError
  | c :: _ => ret c
  end.

(** [review_with_ai(openai_client, model, prompt)]: the result is a [str], or
    [None] when the first choice carries no content. *)
Definition review_with_ai (openai_client : OpenAIClient) (model prompt : pystr)
  : M (option pystr) :=
  try_except
    (response <- chat_completions_create openai_client model
                   [system_message; user_message prompt] (3 # 10) 2000 ;;
     choice <- first_choice response ;;
     ret (message_content choice))
    (fun e => ret (Some (lit "Error during AI review: " ++ exc_str e))).

(** [post_pr_comment(github_token, repo_full_name, pr_number, review_body)]. *)
Definition post_pr_comment (github_token repo_full_name pr_number review_body : pystr)
  : M unit :=
  g <- Github github_token ;;
  repo <- get_repo g repo_full_name ;;
  n <- int pr_number ;;
  pr <- get_pull repo n ;;
  let comment_body := comment_body_of review_body in
  create_issue_comment pr comment_body ;;
  print (check_mark ++ lit " Posted review comment on PR #" ++ pr_number).

(** The [try] block of [main] up to and including the call of
    [review_with_ai] (lines 154 to 175). *)
Definition fetch_and_review (args : Args) (openai_client : OpenAIClient)
  : M (option pystr) :=
  print (inbox_tray ++ lit " Fetching PR diff...") ;;
  diff <- get_pr_diff (args_github_token args) (args_repo args) (args_pr_number args) ;;
  print (file_folder ++ lit " Fetching changed files...") ;;
  changed_files <-
    get_changed_files (args_github_token args) (args_repo args) (args_pr_number args) ;;
  g <- Github (args_github_token args) ;;
  repo <- get_repo g (args_repo args) ;;
  n <- int (args_pr_number args) ;;
  pr <- get_pull repo n ;;
  let pr_title := title pr in
  let pr_body := str_or (body pr) [] in
  print (memo ++ lit " PR: " ++ pr_title) ;;
  print (bar_chart ++ lit " Changed files: "
           ++ str_of_int (Z.of_nat (length changed_files))) ;;
  print (robot ++ lit " Generating AI review...") ;;
  let prompt := create_review_prompt diff changed_files (Some pr_title) (Some pr_body) in
  review_with_ai openai_client (args_openai_model args) prompt.

(** The rest of the [try] block (lines 177 to 185): the prefix test, then the
    publisher.  [review.startswith] on [None] raises [AttributeError]. *)
Definition publish_or_abort (args : Args) (review : option pystr) : M unit :=
  match review with
  | None => raise AttributeError_startswith
  | Some review =>
      if startswith review (lit "Error")
      then
        print (cross_mark ++ lit " " ++ review) ;;
        sys_exit 1
      else
        print (speech_balloon ++ lit " Posting review comment...") ;;
        post_pr_comment (args_github_token args) (args_repo args)
          (args_pr_number args) review ;;
        print (check_mark ++ lit " Review completed successfully!")
  end.

(** The [except Exception as e] clause of [main]. *)
Definition main_handler (e : pyexc) : M unit :=
  print (cross_mark ++ lit " Error during review: " ++ exc_str e) ;;
  print_exc e ;;
  sys_exit 1.

(** [main()], after [parser.parse_args()] produced [args]. *)
Definition main (args : Args) : M unit :=
  print (clipboard ++ lit " Reviewing PR #" ++ args_pr_number args ++ lit " in "
           ++ args_repo args) ;;
  openai_client <- OpenAI (args_openai_api_key args) ;;
  try_except
    (review <- fetch_and_review args openai_client ;;
     publish_or_abort args review)
    main_handler.

End Script.

(** ** The prompt as the specification describes it

    The pieces of the template around the parts the specification talks
    about, and the specification's own wording of the truncation rules; the
    theorems below compare them with [create_review_prompt]. *)

(** The first sentence of the prompt and the blank line after it. *)
Definition prompt_intro : pystr :=
  lit "You are an expert code reviewer. Review the following pull request changes and provide constructive feedback." ++ nl
  ++ nl.

(** Everything before the file summary. *)
Definition prompt_before_files (pr_title pr_body : option pystr) : pystr :=
  prompt_intro
  ++ lit "Pull Request Title: " ++ str_or pr_title (lit "N/A") ++ nl
  ++ lit "Pull Request Description: " ++ str_or pr_body (lit "N/A") ++ nl
  ++ nl
  ++ lit "Changed Files:" ++ nl.

(** Everything after the [{diff[:50000]}] field. *)
Definition prompt_after_diff : pystr :=
  lit "  # Limit diff size to avoid token limits" ++ nl
  ++ lit "```" ++ nl
  ++ nl
  ++ review_instructions.

(** Everything between the file summary and the diff. *)
Definition prompt_between_files_and_diff : pystr :=
  nl ++ nl ++ lit "Diff:" ++ nl ++ lit "```" ++ nl.

(** The specification's rule for the diff: a diff longer than 50,000
    characters is cut to its first 50,000, a shorter one is kept whole. *)
Definition specified_diff (diff : pystr) : pystr :=
  if (50000 <? Z.of_nat (length diff))
  then firstn diff_limit diff
  else diff.

(** The decimal digits of [n], most significant first, by repeated division
    by ten; [fuel] bounds the number of digits. *)
Fixpoint decimal_digits (fuel : nat) (n : N) (acc : pystr) : pystr :=
  match fuel with
  | O => acc
  | S fuel' =>
      let acc' := (48 + n mod 10)%N :: acc in
      if (n / 10 =? 0)%N then acc' else decimal_digits fuel' (n / 10) acc'
  end.

(** An integer written in decimal, as the specification's [{additions}],
    [{deletions}] and [{n-20}] read: a minus sign when negative, then the
    digits.  It is defined apart from the code's [str_of_int]. *)
Definition decimal (z : Z) : pystr :=
  let n := Z.abs_N z in
  let digits := decimal_digits (S (N.to_nat (N.log2 n))) n [] in
  if z <? 0 then 45%N :: digits else digits.

(** The specification's line for one file:
    [- {path} ({status}, +{additions}/-{deletions})]. *)
Definition specified_file_line (f : ChangedFile) : pystr :=
  lit "- " ++ filename f ++ lit " (" ++ status f ++ lit ", +"
    ++ decimal (additions f) ++ lit "/-" ++ decimal (deletions f) ++ lit ")".

(** The specification's rule for the file summary, as a list of lines: the
    first [min(n, 20)] files, one line each, then the line
    [... and {n-20} more files] when [n > 20]. *)
Definition specified_summary_lines (changed_files : list ChangedFile) : list pystr :=
  let n := length changed_files in
  map specified_file_line (firstn (Nat.min n 20) changed_files)
  ++ (if (20 <? n)%nat
      then [lit "... and " ++ decimal (Z.of_nat (n - 20)) ++ lit " more files"]
      else []).

(** The characters of a numeral of the library that [str_of_int] prints
    with. *)
Definition uint_str (d : Decimal.uint) : pystr :=
  lit (NilEmpty.string_of_uint d).

(** ** What the traces show *)

(** The bodies of the comments that were created (calls of
    [create_issue_comment] that returned). *)
Fixpoint comments_posted (evs : Trace) : list pystr :=
  match evs with
  | [] => []
  | ECreateIssueComment _ b true :: rest => b :: comments_posted rest
  | _ :: rest => comments_posted rest
  end.

(** The bodies passed to [create_issue_comment], whether it returned or
    raised. *)
Fixpoint issue_comment_calls (evs : Trace) : list pystr :=
  match evs with
  | [] => []
  | ECreateIssueComment _ b _ :: rest => b :: issue_comment_calls rest
  | _ :: rest => issue_comment_calls rest
  end.

(** The number of [Github(...)] clients constructed.  [post_pr_comment]
    constructs one as its first statement, and nothing else after the review
    does, so among the events after the review this counts the calls of the
    publisher. *)
Fixpoint github_clients (evs : Trace) : nat :=
  match evs with
  | [] => 0%nat
  | EGithub _ :: rest => S (github_clients rest)
  | _ :: rest => github_clients rest
  end.

(** A program never raises [SystemExit] and emits only events that satisfy
    [P]. *)
Definition emits {A : Type} (P : Event -> Prop) (c : M A) : Prop :=
  forall h : Trace,
    match fst (c h) with
    | Exit _ => False
    | _ => True
    end
    /\ Forall P (snd (c h)).

(** Every event but a call of [create_issue_comment]. *)
Definition not_comment (ev : Event) : Prop :=
  match ev with
  | ECreateIssueComment _ _ _ => False
  | _ => True
  end.


(** ** Test doubles

    Environments with fixed answers, for running the script on concrete
    inputs. *)

(** [int()] restricted to plain ASCII digits; anything else is a
    [ValueError]. *)
Definition ValueError : pyexc :=
  {| exc_class := lit "ValueError";
     exc_str := lit "invalid literal for int() with base 10" |}.

Fixpoint digits_value (acc : Z) (s : pystr) : reply Z :=
  match s with
  | [] => inr acc
  | c :: s' =>
      if ((48 <=? c) && (c <=? 57))%N
      then digits_value (10 * acc + (Z.of_N c - 48)) s'
      else inl ValueError
  end.

Definition int_of_digits (s : pystr) : reply Z :=
  match s with
  | [] => inl ValueError
  | _ :: _ => digits_value 0 s
  end.

(** An environment in which the clients are constructed and the pull request
    is found, and the HTTP, chat and comment calls answer as given. *)
Definition fixed_env (get : reply Response) (chat : reply ChatCompletion)
  (comment : reply unit) : Env :=
  {| env_OpenAI := fun _ key => inr {| api_key := key |};
     env_requests_get := fun _ _ _ => get;
     env_Github := fun _ token => inr {| gh_token := token |};
     env_get_repo := fun _ _ name => inr {| full_name := name |};
     env_get_pull := fun _ _ n =>
       inr {| number := n; title := lit "Add widget"; body := None |};
     env_create_issue_comment := fun _ _ _ => comment;
     env_chat_create := fun _ _ _ _ _ _ => chat;
     env_int := int_of_digits |}.

Definition sample_files : list ChangedFile :=
  [ {| filename := lit "src/widget.py"; status := lit "modified";
       additions := 12; deletions := 3 |};
    {| filename := lit "tests/test_widget.py"; status := lit "added";
       additions := 40; deletions := 0 |};
    {| filename := lit "README.md"; status := lit "modified";
       additions := 1; deletions := 1 |} ].

Definition sample_response (code : Z) (why : pystr) : Response :=
  {| status_code := code;
     reason := why;
     resp_url := lit "https://api.github.com/repos/acme/widgets/pulls/42";
     text := lit "diff --git a/src/widget.py b/src/widget.py";
     json := inr sample_files |}.

Definition sample_completion (answer : pystr) : ChatCompletion :=
  {| choices := [ {| message_content := Some answer |} ] |}.

Definition sample_args : Args :=
  {| args_openai_api_key := lit "sk-test";
     args_github_token := lit "ghp_test";
     args_openai_model := lit "gpt-4-turbo-preview";
     args_pr_number := lit "42";
     args_repo := lit "acme/widgets";
     args_pr_sha := None |}.

Definition network_error : pyexc :=
  {| exc_class := lit "APIConnectionError"; exc_str := lit "Connection error." |}.

(** The chat call fails with a connection error; everything else works. *)
Definition env_chat_fails : Env :=
  fixed_env (inr (sample_response 200 (lit "OK"))) (inl network_error) (inr tt).

(** Everything works and the model answers [LGTM]. *)
Definition env_all_ok : Env :=
  fixed_env (inr (sample_response 200 (lit "OK")))
    (inr (sample_completion (lit "LGTM"))) (inr tt).

(** The events of the stages up to the chat call on the sample command
    line. *)
Definition sample_events_before_review : Trace :=
  [ EPrint (clipboard ++ lit " Reviewing PR #42 in acme/widgets");
    EOpenAI (lit "sk-test");
    EPrint (inbox_tray ++ lit " Fetching PR diff...");
    ERequestsGet (lit "https://api.github.com/repos/acme/widgets/pulls/42")
      [ (lit "Authorization", lit "token ghp_test");
        (lit "Accept", lit "application/vnd.github.v3.diff") ];
    EPrint (file_folder ++ lit " Fetching changed files...");
    ERequestsGet (lit "https://api.github.com/repos/acme/widgets/pulls/42/files")
      [ (lit "Authorization", lit "token ghp_test");
        (lit "Accept", lit "application/vnd.github.v3+json") ];
    EGithub (lit "ghp_test");
    EGetRepo {| gh_token := lit "ghp_test" |} (lit "acme/widgets");
    EGetPull {| full_name := lit "acme/widgets" |} 42;
    EPrint (memo ++ lit " PR: Add widget");
    EPrint (bar_chart ++ lit " Changed files: 3");
    EPrint (robot ++ lit " Generating AI review...");
    EChatCreate {| api_key := lit "sk-test" |} (lit "gpt-4-turbo-preview")
      [ system_message;
        user_message
          (create_review_prompt
             (lit "diff --git a/src/widget.py b/src/widget.py") sample_files
             (Some (lit "Add widget")) (Some [])) ]
      (3 # 10) 2000 ].

(** ** The file reader *)

(** [get_file_contents(file_path)].  [read_text path] stands for
    [open(path, 'r', encoding='utf-8')] followed by [f.read()]: it raises (no
    such file, no permission, bytes that are not UTF-8) or gives the text.
    The [with] block closes the file on both ways out. *)
Definition get_file_contents (read_text : pystr -> reply pystr)
  (file_path : pystr) : M pystr :=
  try_except
    (match read_text file_path with
     | inl e => raise e
     | inr contents => ret contents
     end)
    (fun e => ret (lit "Error reading file: " ++ exc_str e)).

(** ** More readings of the traces *)

(** The number of HTTP GET requests sent through [requests.get]. *)
Fixpoint get_requests (evs : Trace) : nat :=
  match evs with
  | [] => 0%nat
  | ERequestsGet _ _ :: rest => S (get_requests rest)
  | _ :: rest => get_requests rest
  end.

(** The chat-completion requests, in order. *)
Fixpoint chat_requests (evs : Trace) : list Event :=
  match evs with
  | [] => []
  | EChatCreate c m msgs t k :: rest => EChatCreate c m msgs t k :: chat_requests rest
  | _ :: rest => chat_requests rest
  end.

(** The number of newline characters of a string. *)
Fixpoint newlines (s : pystr) : nat :=
  match s with
  | [] => 0%nat
  | c :: s' => ((if N.eqb c 10 then 1 else 0) + newlines s')%nat
  end.

(** The URL and the headers of the two GET requests. *)
Definition pull_url (repo_full_name pr_number : pystr) : pystr :=
  lit "https://api.github.com/repos/" ++ repo_full_name ++ lit "/pulls/"
    ++ pr_number.

Definition files_url (repo_full_name pr_number : pystr) : pystr :=
  lit "https://api.github.com/repos/" ++ repo_full_name ++ lit "/pulls/"
    ++ pr_number ++ lit "/files".

Definition diff_headers (github_token : pystr) : list (pystr * pystr) :=
  [ (lit "Authorization", lit "token " ++ github_token);
    (lit "Accept", lit "application/vnd.github.v3.diff") ].

Definition files_headers (github_token : pystr) : list (pystr * pystr) :=
  [ (lit "Authorization", lit "token " ++ github_token);
    (lit "Accept", lit "application/vnd.github.v3+json") ].

(** The events with which every run of [main] starts. *)
Definition banner_of (args : Args) : Event :=
  EPrint (clipboard ++ lit " Reviewing PR #" ++ args_pr_number args
            ++ lit " in " ++ args_repo args).

(** What the handler of [main] emits for the exception [e]. *)
Definition handler_events (e : pyexc) : Trace :=
  [ EPrint (cross_mark ++ lit " Error during review: " ++ exc_str e);
    ETraceback e ].

(** ** More test doubles *)

(** A file system with one readable file. *)
Definition FileNotFoundError : pyexc :=
  {| exc_class := lit "FileNotFoundError";
     exc_str := lit "[Errno 2] No such file or directory: 'missing.py'" |}.

Definition one_file_system (path : pystr) : reply pystr :=
  if startswith path (lit "README.md") && (length path =? 9)%nat
  then inr (lit "# Widgets")
  else inl FileNotFoundError.

(** The model answers with no choice at all. *)
Definition env_no_choice : Env :=
  fixed_env (inr (sample_response 200 (lit "OK"))) (inr {| choices := [] |})
    (inr tt).

(** The model answers with a choice that has no content. *)
Definition env_no_content : Env :=
  fixed_env (inr (sample_response 200 (lit "OK")))
    (inr {| choices := [ {| message_content := None |} ] |}) (inr tt).

(** The diff request is answered 404. *)
Definition env_not_found : Env :=
  fixed_env (inr (sample_response 404 (lit "Not Found")))
    (inr (sample_completion (lit "LGTM"))) (inr tt).

(** The OpenAI client cannot be constructed. *)
Definition env_no_client : Env :=
  {| env_OpenAI := fun _ _ => inl network_error;
     env_requests_get := env_requests_get env_all_ok;
     env_Github := env_Github env_all_ok;
     env_get_repo := env_get_repo env_all_ok;
     env_get_pull := env_get_pull env_all_ok;
     env_create_issue_comment := env_create_issue_comment env_all_ok;
     env_chat_create := env_chat_create env_all_ok;
     env_int := env_int env_all_ok |}.


(** ** The changed-files list by reference

    Python hands [create_review_prompt] its file list by reference: a list
    object whose items are dict objects, which the function could change
    under the caller's feet.  Here the function is embedded a second time,
    statement by statement, over a heap of such objects, in a monad in which
    writing to an object and emitting an event can be said; the theorems then
    show that it does neither, and that it computes [create_review_prompt] of
    the files the list holds.  The values of a file object are the scalars the
    function formats (strings, integers, [None]); title, body and diff are
    immutable strings and are passed as before. *)

(** The address of an object. *)
Definition loc := nat.

Inductive scalar :=
| SNone
| SStr (s : pystr)
| SInt (n : Z).

(** An item of a list: a scalar or a reference to an object. *)
Inductive pyval :=
| VScalar (v : scalar)
| VRef (l : loc).
Arguments VRef l%_nat.

Inductive pyobj :=
| OList (items : list pyval)
| ODict (entries : list (pystr * scalar)).

(** The object at address [l] of the heap [hp] is [nth_error hp l]. *)
Definition Heap := list pyobj.

(** A program over the heap: its outcome, the heap afterwards and the events
    it emitted. *)
Definition MH (A : Type) : Type := Heap -> outcome A * Heap * Trace.

Definition hret {A} (a : A) : MH A := fun hp => (Ret a, hp, []).

Definition hraise {A} (e : pyexc) : MH A := fun hp => (Raise e, hp, []).

Definition hbind {A B} (c : MH A) (k : A -> MH B) : MH B :=
  fun hp =>
    match c hp with
    | (Ret a, hp1, evs) =>
        let '(o, hp2, evs') := k a hp1 in (o, hp2, evs ++ evs')
    | (Raise e, hp1, evs) => (Raise e, hp1, evs)
    | (Exit n, hp1, evs) => (Exit n, hp1, evs)
    end.

Notation "x <~ c1 ;; c2" := (hbind c1 (fun x => c2))
  (at level 61, c1 at next level, right associativity).

(** The exceptions of subscripting and slicing, with the messages of
    CPython 3.11. *)
Definition KeyError (key : pystr) : pyexc :=
  {| exc_class := lit "KeyError"; exc_str := lit "'" ++ key ++ lit "'" |}.

Definition TypeError (message : pystr) : pyexc :=
  {| exc_class := lit "TypeError"; exc_str := message |}.

(** An address without an object.  Python never holds one; the case keeps
    the operations total. *)
Definition no_such_object : pyexc :=
  {| exc_class := lit "SystemError"; exc_str := lit "no object at this address" |}.

(** A new object is put at the next free address; no existing object is
    touched. *)
Definition alloc (o : pyobj) : MH loc :=
  fun hp => (Ret (length hp), hp ++ [o], []).

(** [obj[:k]]: a new list with the first [k] items of a list. *)
Definition slice_to (l : loc) (k : nat) : MH loc :=
  fun hp =>
    match nth_error hp l with
    | Some (OList items) => alloc (OList (firstn k items)) hp
    | Some (ODict _) => hraise (TypeError (lit "unhashable type: 'slice'")) hp
    | None => hraise no_such_object hp
    end.

Arguments slice_to l%_nat k%_nat.

(** The items of a list, as a [for] clause visits them. *)
Definition list_items (l : loc) : MH (list pyval) :=
  fun hp =>
    match nth_error hp l with
    | Some (OList items) => hret items hp
    | Some (ODict entries) =>
        hret (map (fun kv => VScalar (SStr (fst kv))) entries) hp
    | None => hraise no_such_object hp
    end.

(** [len(obj)]. *)
Definition len (l : loc) : MH nat :=
  fun hp =>
    match nth_error hp l with
    | Some (OList items) => hret (length items) hp
    | Some (ODict entries) => hret (length entries) hp
    | None => hraise no_such_object hp
    end.

(** The value under [key] in the entries of a dict. *)
Fixpoint lookup (key : pystr) (entries : list (pystr * scalar)) : option scalar :=
  match entries with
  | [] => None
  | (k, v) :: rest =>
      if list_eq_dec N.eq_dec k key then Some v else lookup key rest
  end.

(** [f[key]] with a string [key]. *)
Definition getitem (f : pyval) (key : pystr) : MH scalar :=
  fun hp =>
    match f with
    | VRef l =>
        match nth_error hp l with
        | Some (ODict entries) =>
            match lookup key entries with
            | Some v => hret v hp
            | None => hraise (KeyError key) hp
            end
        | Some (OList _) =>
            hraise (TypeError (lit "list indices must be integers or slices, not str")) hp
        | None => hraise no_such_object hp
        end
    | VScalar (SStr _) =>
        hraise (TypeError (lit "string indices must be integers, not 'str'")) hp
    | VScalar SNone =>
        hraise (TypeError (lit "'NoneType' object is not subscriptable")) hp
    | VScalar (SInt _) =>
        hraise (TypeError (lit "'int' object is not subscriptable")) hp
    end.

(** A replacement field [{v}] of an f-string. *)
Definition format_field (v : scalar) : pystr :=
  match v with
  | SNone => lit "None"
  | SStr s => s
  | SInt n => str_of_int n
  end.

(** The f-string of the list comprehension, for the item [f]. *)
Definition file_line_of (f : pyval) : MH pystr :=
  filename <~ getitem f (lit "filename") ;;
  status <~ getitem f (lit "status") ;;
  additions <~ getitem f (lit "additions") ;;
  deletions <~ getitem f (lit "deletions") ;;
  hret (lit "- " ++ format_field filename ++ lit " (" ++ format_field status
          ++ lit ", +" ++ format_field additions ++ lit "/-"
          ++ format_field deletions ++ lit ")").

(** The list comprehension over the items of the slice. *)
Fixpoint file_lines_of (items : list pyval) : MH (list pystr) :=
  match items with
  | [] => hret []
  | f :: rest =>
      line <~ file_line_of f ;;
      lines <~ file_lines_of rest ;;
      hret (line :: lines)
  end.

(** [create_review_prompt(diff, changed_files, pr_title, pr_body)] with
    [changed_files] by reference: the slice and the list of the comprehension
    are new objects. *)
Definition create_review_prompt_by_reference (diff : pystr) (changed_files : loc)
  (pr_title pr_body : option pystr) : MH pystr :=
  first <~ slice_to changed_files 20 ;;
  items <~ list_items first ;;
  lines <~ file_lines_of items ;;
  built <~ alloc (OList (map (fun line => VScalar (SStr line)) lines)) ;;
  let file_summary := join nl lines in
  n <~ len changed_files ;;
  let file_summary :=
    if 20 <? Z.of_nat n
    then file_summary ++ nl ++ lit "... and " ++ str_of_int (Z.of_nat n - 20)
           ++ lit " more files"
    else file_summary in
  hret (prompt_before_files pr_title pr_body
          ++ file_summary
          ++ prompt_between_files_and_diff
          ++ firstn diff_limit diff
          ++ prompt_after_diff).

Arguments create_review_prompt_by_reference diff changed_files%_nat
  pr_title pr_body.

(** The dict with these entries is the file [f]. *)
Definition dict_of_file (f : ChangedFile) (entries : list (pystr * scalar)) : Prop :=
  lookup (lit "filename") entries = Some (SStr (filename f))
  /\ lookup (lit "status") entries = Some (SStr (status f))
  /\ lookup (lit "additions") entries = Some (SInt (additions f))
  /\ lookup (lit "deletions") entries = Some (SInt (deletions f)).

(** In the heap [hp], the value [v] refers to a dict that is the file [f]. *)
Definition item_is_file (hp : Heap) (v : pyval) (f : ChangedFile) : Prop :=
  exists (l : loc) (entries : list (pystr * scalar)),
    v = VRef l /\ nth_error hp l = Some (ODict entries) /\ dict_of_file f entries.

(** In the heap [hp], the address [l] holds the list of the files [files]:
    Python's [==] between two such lists is equality of [files]. *)
Definition holds_files (hp : Heap) (l : loc) (files : list ChangedFile) : Prop :=
  exists items : list pyval,
    nth_error hp l = Some (OList items) /\ Forall2 (item_is_file hp) items files.

Arguments holds_files hp l%_nat files.

(** The run of a program changed no object that existed and emitted no
    event. *)
Definition leaves_untouched {A : Type} (c : MH A) : Prop :=
  forall hp : Heap,
    snd (c hp) = [] /\ exists fresh : Heap, snd (fst (c hp)) = hp ++ fresh.

(** A heap with the three sample files and their list at address 3, and a
    second heap with the same list at another address. *)
Definition dict_for (f : ChangedFile) : pyobj :=
  ODict [ (lit "sha", SStr (lit "6dcb09b"));
          (lit "filename", SStr (filename f));
          (lit "status", SStr (status f));
          (lit "additions", SInt (additions f));
          (lit "deletions", SInt (deletions f));
          (lit "patch", SNone) ].

Definition sample_heap : Heap :=
  map dict_for sample_files ++ [OList [VRef 0; VRef 1; VRef 2]].

Definition other_heap : Heap :=
  [OList []] ++ map dict_for sample_files
  ++ [ODict []; OList [VRef 1; VRef 2; VRef 3]].

(** * Properties *)

(** ** Strings *)

Example str_of_int_0 : str_of_int 0 = lit "0".
Proof. reflexivity. Qed.

Example str_of_int_1203 : str_of_int 1203 = lit "1203".
Proof. reflexivity. Qed.

Example str_of_int_neg : str_of_int (-45) = lit "-45".
Proof. reflexivity. Qed.

Lemma join_snoc (sep : pystr) (parts : list pystr) (x : pystr) :
  parts <> [] -> join sep (parts ++ [x]) = join sep parts ++ sep ++ x.
Proof.
  induction parts as [|p parts IH]; intros Hne; [congruence|].
  destruct parts as [|q parts]; [reflexivity|].
  change (join sep ((p :: q :: parts) ++ [x]))
    with (p ++ sep ++ join sep ((q :: parts) ++ [x])).
  rewrite IH by discriminate.
  change (join sep (p :: q :: parts)) with (p ++ sep ++ join sep (q :: parts)).
  rewrite <- ?app_assoc; reflexivity.
Qed.

Lemma specified_diff_firstn (diff : pystr) :
  specified_diff diff = firstn diff_limit diff.
Proof.
  unfold specified_diff, diff_limit.
  destruct (50000 <? Z.of_nat (length diff)) eqn:E; [reflexivity|].
  apply Z.ltb_ge in E. symmetry. apply firstn_all2. lia.
Qed.

(** *** Decimal numerals *)

Lemma uint_str_revapp (a b : Decimal.uint) :
  uint_str (Decimal.revapp a b) = uint_str (Decimal.rev a) ++ uint_str b.
Proof.
  revert b. unfold Decimal.rev.
  induction a; intros b; simpl Decimal.revapp; [reflexivity | ..];
    rewrite IHa; symmetry; rewrite IHa; rewrite <- app_assoc; reflexivity.
Qed.

Lemma to_lu_add (n : N) (k : nat) :
  DecimalPos.Unsigned.to_lu (n + N.of_nat k)
  = Nat.iter k Decimal.Little.succ (DecimalPos.Unsigned.to_lu n).
Proof.
  induction k as [|k IH].
  - now rewrite N.add_0_r.
  - rewrite Nat2N.inj_succ, N.add_succ_r, DecimalPos.Unsigned.to_lu_succ, IH.
    reflexivity.
Qed.

(** The rendering of [10 * m + d] is the rendering of [m] followed by the
    digit [d]. *)
Lemma to_uint_step (p : positive) (d : N) :
  (d < 10)%N ->
  uint_str (N.to_uint (10 * N.pos p + d))
  = uint_str (N.to_uint (N.pos p)) ++ [(48 + d)%N].
Proof.
  intros Hd.
  assert (Hrev : forall n, N.to_uint n = Decimal.rev (DecimalPos.Unsigned.to_lu n))
    by (intros [|q]; reflexivity).
  rewrite !Hrev.
  replace d with (N.of_nat (N.to_nat d)) at 1 by apply N2Nat.id.
  rewrite to_lu_add, DecimalPos.Unsigned.to_ldec_tenfold.
  assert (Hk : (N.to_nat d < 10)%nat) by lia.
  replace (48 + d)%N with (48 + N.of_nat (N.to_nat d))%N
    by (now rewrite N2Nat.id).
  generalize dependent (N.to_nat d). intros k Hk.
  do 10 (destruct k as [|k];
         [ simpl Nat.iter; unfold Decimal.rev; simpl Decimal.revapp;
           rewrite uint_str_revapp; reflexivity |]).
  lia.
Qed.

Lemma to_uint_small (n : N) :
  (n < 10)%N -> uint_str (N.to_uint n) = [(48 + n)%N].
Proof.
  intros Hn.
  assert (Hk : (N.to_nat n < 10)%nat) by lia.
  replace n with (N.of_nat (N.to_nat n)) by apply N2Nat.id.
  generalize dependent (N.to_nat n). intros k Hk.
  do 10 (destruct k as [|k]; [reflexivity|]). lia.
Qed.

(** The library's rendering obeys the division rule of [decimal_digits]. *)
Lemma to_uint_div_mod (n : N) :
  uint_str (N.to_uint n)
  = if (n / 10 =? 0)%N then [(48 + n mod 10)%N]
    else uint_str (N.to_uint (n / 10)) ++ [(48 + n mod 10)%N].
Proof.
  pose proof (N.div_mod n 10 ltac:(discriminate)) as Hdm.
  pose proof (N.mod_lt n 10 ltac:(discriminate)) as Hlt.
  destruct (n / 10 =? 0)%N eqn:E.
  - apply N.eqb_eq in E. rewrite E in Hdm.
    rewrite <- to_uint_small by lia. f_equal. f_equal. lia.
  - apply N.eqb_neq in E.
    destruct (n / 10)%N as [|p] eqn:Hq; [congruence|].
    rewrite Hdm at 1. apply to_uint_step. exact Hlt.
Qed.

Lemma decimal_digits_S (fuel : nat) (n : N) (acc : pystr) :
  decimal_digits (S fuel) n acc
  = if (n / 10 =? 0)%N then (48 + n mod 10)%N :: acc
    else decimal_digits fuel (n / 10) ((48 + n mod 10)%N :: acc).
Proof. reflexivity. Qed.

Lemma decimal_digits_to_uint (fuel : nat) (n : N) (acc : pystr) :
  (n < 2 ^ N.of_nat (S fuel))%N ->
  decimal_digits (S fuel) n acc = uint_str (N.to_uint n) ++ acc.
Proof.
  revert n acc. induction fuel as [|fuel IH]; intros n acc Hn;
    rewrite decimal_digits_S, (to_uint_div_mod n);
    destruct (n / 10 =? 0)%N eqn:E; try reflexivity.
  - apply N.eqb_neq in E. change (2 ^ N.of_nat 1)%N with 2%N in Hn.
    exfalso. apply E. apply N.div_small. lia.
  - rewrite IH; [now rewrite <- app_assoc|].
    rewrite Nat2N.inj_succ, N.pow_succ_r' in Hn.
    apply N.Div0.div_lt_upper_bound. lia.
Qed.

Lemma lt_pow2_log2 (n : N) : (n < 2 ^ N.of_nat (S (N.to_nat (N.log2 n))))%N.
Proof.
  rewrite Nat2N.inj_succ, N2Nat.id.
  destruct n as [|p]; [reflexivity|].
  apply N.log2_spec. reflexivity.
Qed.

(** The code's [str(n)] is the decimal numeral of the specification. *)
Lemma str_of_int_decimal (z : Z) : str_of_int z = decimal z.
Proof.
  unfold decimal.
  rewrite decimal_digits_to_uint by apply lt_pow2_log2.
  rewrite app_nil_r.
  destruct z as [|p|p]; try reflexivity.
  - unfold str_of_int, uint_str. cbn [Z.to_int Z.abs_N N.to_uint Z.ltb Z.compare].
    unfold NilZero.string_of_int, NilZero.string_of_uint.
    pose proof (DecimalPos.Unsigned.to_uint_nonnil p) as Hnn.
    destruct (Pos.to_uint p); [congruence | reflexivity ..].
  - unfold str_of_int, uint_str. cbn [Z.to_int Z.abs_N N.to_uint Z.ltb Z.compare].
    unfold NilZero.string_of_int, NilZero.string_of_uint.
    pose proof (DecimalPos.Unsigned.to_uint_nonnil p) as Hnn.
    destruct (Pos.to_uint p); [congruence | reflexivity ..].
Qed.

Example decimal_0 : decimal 0 = lit "0".
Proof. reflexivity. Qed.

Example decimal_1203 : decimal 1203 = lit "1203".
Proof. reflexivity. Qed.

Example decimal_neg : decimal (-45) = lit "-45".
Proof. reflexivity. Qed.

(** The code's line for a file is the specification's. *)
Lemma file_line_as_specified (f : ChangedFile) :
  file_line f = specified_file_line f.
Proof.
  unfold file_line, specified_file_line.
  now rewrite !str_of_int_decimal.
Qed.

(** The specification's lines, written with the code's functions. *)
Lemma specified_summary_lines_eq (changed_files : list ChangedFile) :
  specified_summary_lines changed_files
  = map file_line
      (firstn (Nat.min (length changed_files) 20) changed_files)
    ++ (if (20 <? length changed_files)%nat
        then [lit "... and "
                ++ str_of_int (Z.of_nat (length changed_files - 20))
                ++ lit " more files"]
        else []).
Proof.
  unfold specified_summary_lines. cbv zeta.
  rewrite str_of_int_decimal. f_equal.
  apply map_ext. intros f. symmetry. apply file_line_as_specified.
Qed.

Lemma file_summary_lines (changed_files : list ChangedFile) :
  file_summary changed_files = join nl (specified_summary_lines changed_files).
Proof.
  rewrite specified_summary_lines_eq.
  unfold file_summary, file_limit.
  destruct (20 <? Z.of_nat (length changed_files)) eqn:E.
  - apply Z.ltb_lt in E.
    assert (Hn : (20 < length changed_files)%nat) by lia.
    apply Nat.ltb_lt in Hn as Hb. rewrite Hb.
    replace (Nat.min (length changed_files) 20) with 20%nat by lia.
    rewrite join_snoc.
    + unfold more_files_suffix.
      replace (Z.of_nat (length changed_files - 20))
        with (Z.of_nat (length changed_files) - 20) by lia.
      rewrite <- ?app_assoc; reflexivity.
    + destruct changed_files; [simpl in Hn; lia | discriminate].
  - apply Z.ltb_ge in E.
    assert (Hb : (20 <? length changed_files)%nat = false)
      by (apply Nat.ltb_ge; lia).
    rewrite Hb, app_nil_r.
    replace (Nat.min (length changed_files) 20) with (length changed_files) by lia.
    rewrite firstn_all. f_equal. f_equal. apply firstn_all2. lia.
Qed.

(** ** The prompt builder *)

(** The template of [create_review_prompt], cut at the file summary and at the
    diff. *)
Lemma create_review_prompt_template
  (diff : pystr) (changed_files : list ChangedFile) (pr_title pr_body : option pystr) :
  create_review_prompt diff changed_files pr_title pr_body
  = prompt_before_files pr_title pr_body
    ++ file_summary changed_files
    ++ prompt_between_files_and_diff
    ++ firstn diff_limit diff
    ++ prompt_after_diff.
Proof.
  unfold create_review_prompt, prompt_before_files, prompt_intro,
    prompt_between_files_and_diff, prompt_after_diff.
  rewrite <- ?app_assoc. reflexivity.
Qed.

Lemma length_specified_diff (diff : pystr) :
  length (specified_diff diff) = Nat.min diff_limit (length diff).
Proof. rewrite specified_diff_firstn. apply length_firstn. Qed.

(** C2: the prompt embeds the diff cut as the specification says (the first
    50,000 characters of a longer diff, a shorter one in full), what follows
    the embedded diff is text that does not depend on the diff, and the prompt
    of a diff is the prompt of its first 50,000 characters: nothing marks a
    truncation. *)
Theorem create_review_prompt_truncates_diff :
  forall (diff : pystr) (changed_files : list ChangedFile)
         (pr_title pr_body : option pystr),
    create_review_prompt diff changed_files pr_title pr_body
    = (prompt_before_files pr_title pr_body
       ++ file_summary changed_files
       ++ prompt_between_files_and_diff)
      ++ specified_diff diff
      ++ prompt_after_diff
    /\ length (specified_diff diff) = Nat.min (Z.to_nat 50000) (length diff)
    /\ create_review_prompt diff changed_files pr_title pr_body
       = create_review_prompt (firstn diff_limit diff) changed_files pr_title pr_body.
Proof.
  intros diff changed_files pr_title pr_body. repeat split.
  - rewrite create_review_prompt_template, specified_diff_firstn.
    rewrite <- ?app_assoc. reflexivity.
  - apply length_specified_diff.
  - rewrite !create_review_prompt_template, firstn_firstn, Nat.min_id.
    reflexivity.
Qed.

(** C3: the file summary embedded in the prompt is the specification's list
    of lines joined by newlines: the first [min(n, 20)] files in input order,
    each written [- {path} ({status}, +{additions}/-{deletions})] with the
    counts in decimal, then the line [... and {n-20} more files] exactly when
    [n > 20]; the specification's lines are spelled out in
    [specified_file_line] and [specified_summary_lines], apart from the
    code's [file_line] and [str_of_int]. *)
Theorem create_review_prompt_file_summary :
  forall (diff : pystr) (changed_files : list ChangedFile)
         (pr_title pr_body : option pystr),
    create_review_prompt diff changed_files pr_title pr_body
    = prompt_before_files pr_title pr_body
      ++ join nl (specified_summary_lines changed_files)
      ++ prompt_between_files_and_diff
      ++ firstn diff_limit diff
      ++ prompt_after_diff
    /\ length (specified_summary_lines changed_files)
       = (if (20 <? length changed_files)%nat then 21 else length changed_files)%nat.
Proof.
  intros diff changed_files pr_title pr_body. split.
  - now rewrite create_review_prompt_template, file_summary_lines.
  - rewrite specified_summary_lines_eq.
    rewrite length_app, length_map, length_firstn.
    destruct (20 <? length changed_files)%nat eqn:E.
    + apply Nat.ltb_lt in E. simpl. lia.
    + apply Nat.ltb_ge in E. simpl. lia.
Qed.

(** C5: a title that is [None] or absent (the default, the empty string) is rendered as
    [N/A] after ["Pull Request Title: "], and a body that is [None] or absent
    is rendered as [N/A] after ["Pull Request Description: "]. *)
Theorem create_review_prompt_missing_title_body :
  forall (diff : pystr) (changed_files : list ChangedFile)
         (pr_title pr_body : option pystr),
    let rest :=
      nl ++ lit "Changed Files:" ++ nl
      ++ file_summary changed_files ++ prompt_between_files_and_diff
      ++ firstn diff_limit diff ++ prompt_after_diff in
    (pr_title = None \/ pr_title = default_arg ->
     create_review_prompt diff changed_files pr_title pr_body
     = prompt_intro
       ++ lit "Pull Request Title: N/A" ++ nl
       ++ lit "Pull Request Description: " ++ str_or pr_body (lit "N/A") ++ nl
       ++ rest)
    /\ (pr_body = None \/ pr_body = default_arg ->
        create_review_prompt diff changed_files pr_title pr_body
        = prompt_intro
          ++ lit "Pull Request Title: " ++ str_or pr_title (lit "N/A") ++ nl
          ++ lit "Pull Request Description: N/A" ++ nl
          ++ rest).
Proof.
  intros diff changed_files pr_title pr_body rest. subst rest.
  split; intros [-> | ->]; rewrite create_review_prompt_template;
    unfold prompt_before_files, default_arg, str_or;
    rewrite <- ?app_assoc; reflexivity.
Qed.

(** C10: the text of the source comment follows the embedded diff on its
    line, before the closing fence. *)
Theorem create_review_prompt_embeds_source_comment :
  forall (diff : pystr) (changed_files : list ChangedFile)
         (pr_title pr_body : option pystr),
    create_review_prompt diff changed_files pr_title pr_body
    = (prompt_before_files pr_title pr_body
       ++ file_summary changed_files
       ++ nl ++ nl ++ lit "Diff:" ++ nl ++ lit "```" ++ nl)
      ++ firstn diff_limit diff
      ++ lit "  # Limit diff size to avoid token limits" ++ nl
      ++ lit "```" ++ nl
      ++ nl ++ review_instructions.
Proof.
  intros. rewrite create_review_prompt_template.
  unfold prompt_between_files_and_diff, prompt_after_diff.
  rewrite <- ?app_assoc. reflexivity.
Qed.

(** ** The prompt builder on the heap *)

Lemma untouched_hret {A} (a : A) : leaves_untouched (hret a).
Proof. intros hp. split; [reflexivity | exists []; now rewrite app_nil_r]. Qed.

Lemma untouched_hraise {A} (e : pyexc) : leaves_untouched (@hraise A e).
Proof. intros hp. split; [reflexivity | exists []; now rewrite app_nil_r]. Qed.

Lemma untouched_alloc (o : pyobj) : leaves_untouched (alloc o).
Proof. intros hp. split; [reflexivity | now exists [o]]. Qed.

Lemma untouched_hbind {A B} (c : MH A) (k : A -> MH B) :
  leaves_untouched c -> (forall a, leaves_untouched (k a)) ->
  leaves_untouched (hbind c k).
Proof.
  intros Hc Hk hp. unfold hbind. destruct (Hc hp) as [He [fresh Hh]].
  destruct (c hp) as [[[a | e | n] hp1] evs]; simpl in *; subst;
    try (split; [reflexivity | now exists fresh]).
  destruct (Hk a (hp ++ fresh)) as [He' [fresh' Hh']].
  destruct (k a (hp ++ fresh)) as [[o hp2] evs']; simpl in *; subst.
  split; [reflexivity | exists (fresh ++ fresh'); now rewrite app_assoc].
Qed.

Lemma untouched_slice_to (l : loc) (k : nat) : leaves_untouched (slice_to l k).
Proof.
  intros hp. unfold slice_to.
  destruct (nth_error hp l) as [[items | entries]|];
    [apply untouched_alloc | apply untouched_hraise ..].
Qed.

Lemma untouched_list_items (l : loc) : leaves_untouched (list_items l).
Proof.
  intros hp. unfold list_items.
  destruct (nth_error hp l) as [[items | entries]|];
    [apply untouched_hret .. | apply untouched_hraise].
Qed.

Lemma untouched_len (l : loc) : leaves_untouched (len l).
Proof.
  intros hp. unfold len.
  destruct (nth_error hp l) as [[items | entries]|];
    [apply untouched_hret .. | apply untouched_hraise].
Qed.

Lemma untouched_getitem (f : pyval) (key : pystr) :
  leaves_untouched (getitem f key).
Proof.
  intros hp. unfold getitem.
  destruct f as [[| s | n] | l]; try apply untouched_hraise.
  destruct (nth_error hp l) as [[items | entries]|];
    try apply untouched_hraise.
  destruct (lookup key entries); [apply untouched_hret | apply untouched_hraise].
Qed.

Create HintDb untouched.
#[local] Hint Resolve untouched_hret untouched_hraise untouched_alloc
  untouched_hbind untouched_slice_to untouched_list_items untouched_len
  untouched_getitem : untouched.

Lemma untouched_file_line_of (f : pyval) : leaves_untouched (file_line_of f).
Proof. unfold file_line_of. auto 10 with untouched. Qed.

Lemma untouched_file_lines_of (items : list pyval) :
  leaves_untouched (file_lines_of items).
Proof.
  induction items as [|f rest IH]; simpl.
  - apply untouched_hret.
  - apply untouched_hbind; [apply untouched_file_line_of|].
    intros line. apply untouched_hbind; [exact IH|].
    intros lines. apply untouched_hret.
Qed.

(** Whatever the heap holds, the prompt builder changes no existing object
    and emits no event. *)
Lemma untouched_create_review_prompt (diff : pystr) (changed_files : loc)
  (pr_title pr_body : option pystr) :
  leaves_untouched
    (create_review_prompt_by_reference diff changed_files pr_title pr_body).
Proof.
  unfold create_review_prompt_by_reference.
  pose proof untouched_file_lines_of.
  auto 12 with untouched.
Qed.

Lemma item_is_file_extend (hp fresh : Heap) (v : pyval) (f : ChangedFile) :
  item_is_file hp v f -> item_is_file (hp ++ fresh) v f.
Proof.
  intros (l & entries & -> & Hl & Hd). exists l, entries.
  split; [reflexivity|]. split; [|exact Hd].
  rewrite nth_error_app1; [exact Hl|].
  apply nth_error_Some. congruence.
Qed.

Lemma holds_files_extend (hp fresh : Heap) (l : loc) (files : list ChangedFile) :
  holds_files hp l files -> holds_files (hp ++ fresh) l files.
Proof.
  intros (items & Hl & Hitems). exists items. split.
  - rewrite nth_error_app1; [exact Hl|].
    apply nth_error_Some. congruence.
  - eapply Forall2_impl; [|exact Hitems].
    intros v f. apply item_is_file_extend.
Qed.

Lemma Forall2_firstn {A B} (R : A -> B -> Prop) (k : nat) (l : list A)
  (l' : list B) :
  Forall2 R l l' -> Forall2 R (firstn k l) (firstn k l').
Proof.
  intros H. revert k. induction H; intros [|k]; simpl; constructor; auto.
Qed.

Lemma file_line_of_file (hp : Heap) (v : pyval) (f : ChangedFile) :
  item_is_file hp v f -> file_line_of v hp = (Ret (file_line f), hp, []).
Proof.
  intros (l & entries & -> & Hl & Hn & Hs & Ha & Hd).
  unfold file_line_of, hbind, getitem, hret.
  do 4 (rewrite Hl; cbv beta iota zeta;
        rewrite ?Hn, ?Hs, ?Ha, ?Hd; cbv beta iota zeta).
  reflexivity.
Qed.

Lemma file_lines_of_files (hp : Heap) (items : list pyval)
  (files : list ChangedFile) :
  Forall2 (item_is_file hp) items files ->
  file_lines_of items hp = (Ret (map file_line files), hp, []).
Proof.
  induction 1 as [|v f items files Hv _ IH]; [reflexivity|].
  simpl. unfold hbind. rewrite (file_line_of_file _ _ _ Hv), IH.
  reflexivity.
Qed.

(** On a list that holds [files], the builder returns the prompt of
    [files]. *)
Lemma create_review_prompt_by_reference_returns (diff : pystr)
  (pr_title pr_body : option pystr) (hp : Heap) (l : loc)
  (files : list ChangedFile) :
  holds_files hp l files ->
  fst (fst (create_review_prompt_by_reference diff l pr_title pr_body hp))
  = Ret (create_review_prompt diff files pr_title pr_body).
Proof.
  intros (items & Hl & Hitems).
  pose proof (Forall2_length Hitems) as Hlen.
  unfold create_review_prompt_by_reference, hbind at 1, slice_to, alloc.
  rewrite Hl. unfold hbind at 1, list_items.
  rewrite nth_error_app2, Nat.sub_diag by lia. cbn [nth_error hret].
  unfold hbind at 1.
  rewrite (file_lines_of_files _ _ (firstn 20 files))
    by (apply Forall2_firstn; eapply Forall2_impl; [|exact Hitems];
        intros v f; apply item_is_file_extend).
  unfold hbind at 1, alloc. unfold hbind, len.
  assert (Hlt : (l < length hp)%nat) by (apply nth_error_Some; congruence).
  rewrite !nth_error_app1 by (rewrite ?length_app; simpl; lia).
  rewrite Hl. cbn [hret fst]. f_equal.
  rewrite create_review_prompt_template.
  unfold file_summary, more_files_suffix, file_limit.
  rewrite Hlen.
  destruct (20 <? Z.of_nat (length files)); rewrite <- ?app_assoc; reflexivity.
Qed.

(** C8: run on a list that holds [files], [create_review_prompt] returns the
    prompt of [files], whatever else the heap holds and wherever the list
    lies, so two calls with equal arguments return equal prompts; and on
    every heap a call emits no event and changes no object that existed, so
    that its arguments hold afterwards what they held before. *)
Theorem create_review_prompt_deterministic :
  forall (diff : pystr) (pr_title pr_body : option pystr) (hp : Heap) (l : loc),
    let run := create_review_prompt_by_reference diff l pr_title pr_body hp in
    (snd run = []
     /\ exists fresh : Heap, snd (fst run) = hp ++ fresh)
    /\ (forall files : list ChangedFile,
        holds_files hp l files ->
        fst (fst run) = Ret (create_review_prompt diff files pr_title pr_body)
        /\ holds_files (snd (fst run)) l files
        /\ forall (hp' : Heap) (l' : loc),
            holds_files hp' l' files ->
            fst (fst (create_review_prompt_by_reference diff l' pr_title pr_body
                        hp'))
            = fst (fst run)).
Proof.
  intros diff pr_title pr_body hp l run. subst run.
  pose proof (untouched_create_review_prompt diff l pr_title pr_body hp)
    as [Hevents [fresh Hheap]].
  split; [split; [exact Hevents | now exists fresh]|].
  intros files Hfiles. split; [|split].
  - now apply create_review_prompt_by_reference_returns.
  - rewrite Hheap. now apply holds_files_extend.
  - intros hp' l' Hfiles'.
    now rewrite !(create_review_prompt_by_reference_returns _ _ _ _ _ files).
Qed.

(** ** The fetchers *)

Lemma raise_for_status_ok (r : Response) (h : Trace) :
  ~ (400 <= status_code r < 600) -> raise_for_status r h = (Ret tt, []).
Proof.
  intros Hs. unfold raise_for_status.
  destruct ((400 <=? status_code r) && (status_code r <? 500)) eqn:E1.
  - apply andb_true_iff in E1 as [?%Z.leb_le ?%Z.ltb_lt]. lia.
  - destruct ((500 <=? status_code r) && (status_code r <? 600)) eqn:E2;
      [|reflexivity].
    apply andb_true_iff in E2 as [?%Z.leb_le ?%Z.ltb_lt]. lia.
Qed.

Lemma raise_for_status_error (r : Response) (h : Trace) :
  400 <= status_code r < 600 ->
  exists kind, raise_for_status r h = (Raise (HTTPError kind r), []).
Proof.
  intros Hs. unfold raise_for_status.
  destruct ((400 <=? status_code r) && (status_code r <? 500)) eqn:E1.
  - now exists (lit " Client Error: ").
  - destruct ((500 <=? status_code r) && (status_code r <? 600)) eqn:E2.
    + now exists (lit " Server Error: ").
    + apply andb_false_iff in E1, E2.
      rewrite Z.leb_gt, Z.ltb_ge in E1, E2. lia.
Qed.

(** C6, counterexample: it is not so that every answer whose status is
    outside 200..299 makes [get_pr_diff] raise; on a 304 answer
    [raise_for_status] does not raise and [get_pr_diff] returns the body. *)
Lemma get_pr_diff_returns_on_304 :
  ~ (forall (env : Env) (github_token repo_full_name pr_number : pystr)
            (h : Trace) (r : Response),
        env_requests_get env h
          (lit "https://api.github.com/repos/" ++ repo_full_name
             ++ lit "/pulls/" ++ pr_number)
          [ (lit "Authorization", lit "token " ++ github_token);
            (lit "Accept", lit "application/vnd.github.v3.diff") ] = inr r ->
        ~ (200 <= status_code r < 300) ->
        exists e evs,
          get_pr_diff env github_token repo_full_name pr_number h
          = (Raise e, evs)).
Proof.
  intros H.
  destruct (H (fixed_env (inr (sample_response 304 (lit "Not Modified")))
                 (inl network_error) (inr tt))
              (lit "ghp_test") (lit "acme/widgets") (lit "42") []
              (sample_response 304 (lit "Not Modified")) eq_refl)
    as (e & evs & Hrun).
  - simpl. lia.
  - vm_compute in Hrun. discriminate Hrun.
Qed.

(** C6, amended: each fetcher sends one GET.  When the answer's status is in
    400..599, the exception that comes out of the fetcher is the very
    [HTTPError] that [raise_for_status] raised (a client error for 400..499,
    a server error for 500..599).  For every other status [get_pr_diff]
    returns the text of the response, and [get_changed_files] ends as
    [response.json()] ends: it returns the parsed list, or raises the
    exception of [response.json()] when the body does not parse. *)
Theorem fetchers_raise_on_4xx_5xx :
  forall (env : Env) (github_token repo_full_name pr_number : pystr) (h : Trace),
    let diff_get :=
      ERequestsGet (pull_url repo_full_name pr_number)
        (diff_headers github_token) in
    let files_get :=
      ERequestsGet (files_url repo_full_name pr_number)
        (files_headers github_token) in
    (forall r : Response,
        env_requests_get env h (pull_url repo_full_name pr_number)
          (diff_headers github_token) = inr r ->
        (400 <= status_code r < 600 ->
         exists e : pyexc,
           raise_for_status r (h ++ [diff_get]) = (Raise e, [])
           /\ get_pr_diff env github_token repo_full_name pr_number h
              = (Raise e, [diff_get])
           /\ e = HTTPError (if status_code r <? 500
                             then lit " Client Error: "
                             else lit " Server Error: ") r)
        /\ (~ (400 <= status_code r < 600) ->
            get_pr_diff env github_token repo_full_name pr_number h
            = (Ret (text r), [diff_get])))
    /\ (forall r : Response,
        env_requests_get env h (files_url repo_full_name pr_number)
          (files_headers github_token) = inr r ->
        (400 <= status_code r < 600 ->
         exists e : pyexc,
           raise_for_status r (h ++ [files_get]) = (Raise e, [])
           /\ get_changed_files env github_token repo_full_name pr_number h
              = (Raise e, [files_get])
           /\ e = HTTPError (if status_code r <? 500
                             then lit " Client Error: "
                             else lit " Server Error: ") r)
        /\ (~ (400 <= status_code r < 600) ->
            get_changed_files env github_token repo_full_name pr_number h
            = (match json r with
               | inl e => Raise e
               | inr files => Ret files
               end, [files_get]))).
Proof.
  intros env github_token repo_full_name pr_number h.
  cbv zeta.
  assert (Hraise : forall (r : Response) (h' : Trace),
             400 <= status_code r < 600 ->
             raise_for_status r h'
             = (Raise (HTTPError (if status_code r <? 500
                                  then lit " Client Error: "
                                  else lit " Server Error: ") r), [])).
  { intros r h' Hs. unfold raise_for_status.
    destruct (status_code r <? 500) eqn:E5.
    - replace (400 <=? status_code r) with true
        by (symmetry; apply Z.leb_le; lia).
      reflexivity.
    - apply Z.ltb_ge in E5.
      replace ((400 <=? status_code r) && false) with false
        by (now rewrite andb_false_r).
      replace (500 <=? status_code r) with true
        by (symmetry; apply Z.leb_le; lia).
      replace (status_code r <? 600) with true
        by (symmetry; apply Z.ltb_lt; lia).
      reflexivity. }
  split; intros r Hget; split.
  - intros Hs. eexists. split; [apply Hraise; exact Hs|]. split; [|reflexivity].
    unfold get_pr_diff, bind, requests_get, call.
    fold (pull_url repo_full_name pr_number) (diff_headers github_token).
    rewrite Hget, Hraise by exact Hs. reflexivity.
  - intros Hs.
    unfold get_pr_diff, bind, requests_get, call.
    fold (pull_url repo_full_name pr_number) (diff_headers github_token).
    now rewrite Hget, raise_for_status_ok.
  - intros Hs. eexists. split; [apply Hraise; exact Hs|]. split; [|reflexivity].
    unfold get_changed_files, bind, requests_get, call.
    fold (files_url repo_full_name pr_number) (files_headers github_token).
    rewrite Hget, Hraise by exact Hs. reflexivity.
  - intros Hs.
    unfold get_changed_files, bind, requests_get, call, response_json.
    fold (files_url repo_full_name pr_number) (files_headers github_token).
    rewrite Hget, raise_for_status_ok by exact Hs.
    destruct (json r); reflexivity.
Qed.

(** ** The review requester *)

(** C4: when the chat-completion call returns with at least one choice,
    [review_with_ai] returns the content of the first; when the call raises
    an exception [e], it returns ["Error during AI review: "] followed by
    [str(e)], a string that starts with ["Error"]; in every case it returns,
    after the one call. *)
Theorem review_with_ai_contract :
  forall (env : Env) (openai_client : OpenAIClient) (model prompt : pystr)
         (h : Trace),
    let messages := [system_message; user_message prompt] in
    let ev := EChatCreate openai_client model messages (3 # 10) 2000 in
    (forall (response : ChatCompletion) (choice : Choice) (rest : list Choice),
        env_chat_create env h openai_client model messages (3 # 10) 2000
        = inr response ->
        choices response = choice :: rest ->
        review_with_ai env openai_client model prompt h
        = (Ret (message_content choice), [ev]))
    /\ (forall e : pyexc,
        env_chat_create env h openai_client model messages (3 # 10) 2000
        = inl e ->
        review_with_ai env openai_client model prompt h
        = (Ret (Some (lit "Error during AI review: " ++ exc_str e)), [ev])
        /\ startswith (lit "Error during AI review: " ++ exc_str e) (lit "Error")
           = true)
    /\ (exists v : option pystr,
        review_with_ai env openai_client model prompt h = (Ret v, [ev])).
Proof.
  intros env openai_client model prompt h. cbv zeta.
  unfold review_with_ai, try_except, bind, chat_completions_create, call,
    first_choice.
  split; [|split].
  - intros response choice rest -> Hc. rewrite Hc. reflexivity.
  - intros e ->. split; reflexivity.
  - destruct (env_chat_create env h openai_client model
                [system_message; user_message prompt] (3 # 10) 2000)
      as [e | response].
    + eexists. reflexivity.
    + destruct (choices response) as [|choice rest]; eexists; reflexivity.
Qed.

(** ** The comment publisher *)

(** How a run of [post_pr_comment] can end: it constructs one client; either
    it returns and created the comment, or it raised and created none. *)
Lemma post_pr_comment_outcomes (env : Env)
  (github_token repo_full_name pr_number review_body : pystr)
  (h : Trace) (out : outcome unit) (evs : Trace) :
  post_pr_comment env github_token repo_full_name pr_number review_body h
  = (out, evs) ->
  github_clients evs = 1%nat
  /\ ((out = Ret tt
       /\ issue_comment_calls evs = [comment_body_of review_body]
       /\ comments_posted evs = [comment_body_of review_body])
      \/ ((exists e, out = Raise e)
          /\ comments_posted evs = []
          /\ (issue_comment_calls evs = []
              \/ issue_comment_calls evs = [comment_body_of review_body]))).
Proof.
  intros Hrun.
  unfold post_pr_comment, bind, Github, get_repo, get_pull, int, call,
    create_issue_comment, print, raise, ret in Hrun.
  repeat match type of Hrun with
         | context [match ?x with inl _ => _ | inr _ => _ end] =>
             destruct x
         end;
    injection Hrun as <- <-; (split; [reflexivity|]);
    solve [ left; repeat split; reflexivity
          | right; split; [eexists; reflexivity|];
            split; [reflexivity|]; (left + right); reflexivity ].
Qed.

(** C7: when the client, the repository, [int(pr_number)] and the pull
    request are obtained, [post_pr_comment] makes exactly one
    [create_issue_comment] call on that pull request, whose body is the
    review between the heading and the footer of the template and nothing
    else; it returns (after its message) when the call returns and raises the
    call's exception otherwise.  In every run the call is made at most once
    and only with that body, and a run that returns has created the
    comment. *)
Theorem post_pr_comment_posts_wrapped_review :
  forall (env : Env) (github_token repo_full_name pr_number review_body : pystr)
         (h : Trace),
    let wrapped :=
      lit "## " ++ robot ++ lit " AI Code Review" ++ nl
      ++ nl
      ++ review_body ++ nl
      ++ nl
      ++ lit "---" ++ nl
      ++ lit "*This review was generated automatically by AI PR Reviewer*" in
    let run :=
      post_pr_comment env github_token repo_full_name pr_number review_body h in
    (forall (g : GithubClient) (repo : Repository) (n : Z) (pr : PullRequest),
        env_Github env h github_token = inr g ->
        env_get_repo env (h ++ [EGithub github_token]) g repo_full_name
        = inr repo ->
        env_int env pr_number = inr n ->
        env_get_pull env
          (h ++ [EGithub github_token; EGetRepo g repo_full_name]) repo n
        = inr pr ->
        let lookups :=
          [EGithub github_token; EGetRepo g repo_full_name; EGetPull repo n] in
        run
        = match env_create_issue_comment env (h ++ lookups) pr wrapped with
          | inr _ =>
              (Ret tt,
               lookups
               ++ [ ECreateIssueComment pr wrapped true;
                    EPrint (check_mark ++ lit " Posted review comment on PR #"
                              ++ pr_number) ])
          | inl e => (Raise e, lookups ++ [ECreateIssueComment pr wrapped false])
          end)
    /\ (issue_comment_calls (snd run) = [wrapped]
        \/ (issue_comment_calls (snd run) = [] /\ exists e, fst run = Raise e))
    /\ (fst run = Ret tt ->
        issue_comment_calls (snd run) = [wrapped]
        /\ comments_posted (snd run) = [wrapped]).
Proof.
  intros env github_token repo_full_name pr_number review_body h wrapped run.
  change wrapped with (comment_body_of review_body). subst run.
  split.
  - intros g repo n pr Hg Hrepo Hn Hpr lookups. subst lookups.
    unfold post_pr_comment, bind, Github, get_repo, get_pull, int, call,
      create_issue_comment, print, ret.
    rewrite Hg. cbv beta iota zeta.
    rewrite Hrepo. cbv beta iota zeta.
    rewrite Hn. cbv beta iota zeta.
    rewrite app_nil_r.
    replace ((h ++ [EGithub github_token]) ++ [EGetRepo g repo_full_name])
      with (h ++ [EGithub github_token; EGetRepo g repo_full_name])
      by (now rewrite <- app_assoc).
    rewrite Hpr. cbv beta iota zeta.
    replace ((h ++ [EGithub github_token; EGetRepo g repo_full_name])
               ++ [EGetPull repo n])
      with (h ++ [EGithub github_token; EGetRepo g repo_full_name;
                  EGetPull repo n])
      by (now rewrite <- app_assoc).
    destruct (env_create_issue_comment env
                (h ++ [EGithub github_token; EGetRepo g repo_full_name;
                       EGetPull repo n]) pr (comment_body_of review_body));
      reflexivity.
  - destruct (post_pr_comment env github_token repo_full_name pr_number
                review_body h) as [out evs] eqn:Hrun.
    destruct (post_pr_comment_outcomes _ _ _ _ _ _ _ _ Hrun)
      as [_ [(-> & Hcalls & Hposted) | ([e ->] & Hposted & [Hcalls | Hcalls])]];
      cbn [fst snd].
    + split; [now left | now intros _].
    + split; [right; split; [exact Hcalls | now exists e] | discriminate].
    + split; [now left | discriminate].
Qed.

(** ** The unused flag *)


(** ** Events of the stages before the publisher *)

Lemma emits_ret {A} (P : Event -> Prop) (a : A) : emits P (ret a).
Proof. intros h. split; [exact I | constructor]. Qed.

Lemma emits_raise {A} (P : Event -> Prop) (e : pyexc) : emits P (@raise A e).
Proof. intros h. split; [exact I | constructor]. Qed.

Lemma emits_print (P : Event -> Prop) (line : pystr) :
  P (EPrint line) -> emits P (print line).
Proof. intros Hp h. split; [exact I | repeat constructor; exact Hp]. Qed.

Lemma emits_call {A} (P : Event -> Prop) (ev : Event) (answer : Trace -> reply A) :
  P ev -> emits P (call ev answer).
Proof.
  intros Hp h. unfold call.
  destruct (answer h); (split; [exact I | repeat constructor; exact Hp]).
Qed.

Lemma emits_bind {A B} (P : Event -> Prop) (c : M A) (k : A -> M B) :
  emits P c -> (forall a, emits P (k a)) -> emits P (bind c k).
Proof.
  intros Hc Hk h. unfold bind. specialize (Hc h).
  destruct (c h) as [[a | e | code] evs]; simpl in *; try exact Hc.
  specialize (Hk a (h ++ evs)).
  destruct (k a (h ++ evs)) as [o evs']. simpl in *.
  split; [apply Hk | apply Forall_app; split; [apply Hc | apply Hk]].
Qed.

Lemma emits_try_except {A} (P : Event -> Prop) (body : M A)
  (handler : pyexc -> M A) :
  emits P body -> (forall e, emits P (handler e)) ->
  emits P (try_except body handler).
Proof.
  intros Hb Hh h. unfold try_except. specialize (Hb h).
  destruct (body h) as [[a | e | code] evs]; simpl in *; try exact Hb.
  specialize (Hh e (h ++ evs)).
  destruct (handler e (h ++ evs)) as [o evs']. simpl in *.
  split; [apply Hh | apply Forall_app; split; [apply Hb | apply Hh]].
Qed.

Lemma emits_raise_for_status (P : Event -> Prop) (r : Response) :
  emits P (raise_for_status r).
Proof.
  unfold raise_for_status.
  destruct ((400 <=? status_code r) && (status_code r <? 500));
    [apply emits_raise|].
  destruct ((500 <=? status_code r) && (status_code r <? 600));
    [apply emits_raise | apply emits_ret].
Qed.

Lemma emits_response_json (P : Event -> Prop) (r : Response) :
  emits P (response_json r).
Proof.
  unfold response_json. destruct (json r); [apply emits_raise | apply emits_ret].
Qed.

Lemma emits_int (P : Event -> Prop) (env : Env) (s : pystr) : emits P (int env s).
Proof.
  unfold int. destruct (env_int env s); [apply emits_raise | apply emits_ret].
Qed.

Lemma emits_first_choice (P : Event -> Prop) (response : ChatCompletion) :
  emits P (first_choice response).
Proof.
  unfold first_choice.
  destruct (choices response); [apply emits_raise | apply emits_ret].
Qed.

Create HintDb emits.
#[local] Hint Resolve emits_ret emits_raise emits_print emits_call
  emits_bind emits_try_except emits_raise_for_status emits_response_json
  emits_int emits_first_choice : emits.
#[local] Hint Extern 1 (not_comment _) => exact I : emits.

(** The stages up to the review never call [sys.exit] and never touch
    [create_issue_comment]. *)
Lemma fetch_and_review_emits_no_comment (env : Env) (args : Args)
  (openai_client : OpenAIClient) :
  emits not_comment (fetch_and_review env args openai_client).
Proof.
  unfold fetch_and_review, get_pr_diff, get_changed_files, review_with_ai,
    requests_get, Github, get_repo, get_pull, chat_completions_create.
  auto 30 with emits.
Qed.

Lemma comments_posted_app (evs evs' : Trace) :
  comments_posted (evs ++ evs') = comments_posted evs ++ comments_posted evs'.
Proof.
  induction evs as [|ev evs IH]; [reflexivity|].
  destruct ev; simpl; try exact IH.
  destruct posted; simpl; now rewrite ?IH.
Qed.

Lemma no_comment_posted (evs : Trace) :
  Forall not_comment evs -> comments_posted evs = [].
Proof.
  induction 1 as [|ev evs Hev _ IH]; [reflexivity|].
  destruct ev; simpl in *; try exact IH. contradiction.
Qed.

Lemma comments_posted_after_review (started evs1 evs2 : Trace) :
  comments_posted started = [] -> comments_posted evs1 = [] ->
  comments_posted (started ++ evs1 ++ evs2) = comments_posted evs2.
Proof. intros H0 H1. now rewrite !comments_posted_app, H0, H1. Qed.

Lemma github_clients_app (evs evs' : Trace) :
  github_clients (evs ++ evs') = (github_clients evs + github_clients evs')%nat.
Proof.
  induction evs as [|ev evs IH]; [reflexivity|].
  destruct ev; simpl; now rewrite ?IH.
Qed.

(** ** The pipeline *)

(** What [main] does once the Review Requester has returned the string
    [review]. *)
Lemma main_after_review (env : Env) (args : Args) (h : Trace)
  (openai_client : OpenAIClient) (review : pystr) (evs1 : Trace)
  (out : outcome unit) (evs : Trace) :
  let banner :=
    EPrint (clipboard ++ lit " Reviewing PR #" ++ args_pr_number args
              ++ lit " in " ++ args_repo args) in
  let started := [banner; EOpenAI (args_openai_api_key args)] in
  let posting := EPrint (speech_balloon ++ lit " Posting review comment...") in
  env_OpenAI env (h ++ [banner]) (args_openai_api_key args) = inr openai_client ->
  fetch_and_review env args openai_client (h ++ started)
  = (Ret (Some review), evs1) ->
  main env args h = (out, evs) ->
  exists evs2 : Trace,
    evs = started ++ evs1 ++ evs2
    /\ ((exit_code out <> 0 /\ github_clients evs2 = 0%nat)
        <-> startswith review (lit "Error") = true)
    /\ (startswith review (lit "Error") = true ->
        out = Exit 1 /\ evs2 = [EPrint (cross_mark ++ lit " " ++ review)])
    /\ (startswith review (lit "Error") = false ->
        github_clients evs2 = 1%nat
        /\ exists (o3 : outcome unit) (evs3 rest : Trace),
            post_pr_comment env (args_github_token args) (args_repo args)
              (args_pr_number args) review
              (h ++ started ++ evs1 ++ [posting]) = (o3, evs3)
            /\ evs2 = posting :: evs3 ++ rest)
    /\ (exit_code out = 0 -> comments_posted evs = [comment_body_of review])
    /\ (exit_code out <> 0 -> comments_posted evs = []).
Proof.
  intros banner started posting Hclient Hreview Hmain.
  pose proof (fetch_and_review_emits_no_comment env args openai_client
                (h ++ started)) as [_ Hnone].
  rewrite Hreview in Hnone. apply no_comment_posted in Hnone.
  change (comments_posted evs1 = []) in Hnone.
  assert (Hposted : forall evs2,
             comments_posted (started ++ evs1 ++ evs2) = comments_posted evs2)
    by (intros; now apply comments_posted_after_review).
  replace (h ++ started)
    with ((h ++ [banner]) ++ [EOpenAI (args_openai_api_key args)]) in Hreview
    by (rewrite <- app_assoc; reflexivity).
  unfold main, bind at 1, print at 1 in Hmain.
  unfold bind at 1, OpenAI, call in Hmain.
  fold banner in Hmain. rewrite Hclient in Hmain.
  unfold try_except, bind at 1 in Hmain.
  rewrite Hreview in Hmain.
  unfold publish_or_abort in Hmain.
  destruct (startswith review (lit "Error")) eqn:Hprefix.
  - unfold bind, print, sys_exit in Hmain.
    injection Hmain as <- <-.
    exists [EPrint (cross_mark ++ lit " " ++ review)].
    split; [reflexivity|].
    split; [split; [reflexivity | intros _; split; [discriminate | reflexivity]]|].
    split; [intros _; split; reflexivity|].
    split; [discriminate|].
    split; [discriminate|].
    intros _. etransitivity; [eapply Hposted | reflexivity].
  - unfold bind at 1, print at 1 in Hmain. fold posting in Hmain.
    unfold bind at 1 in Hmain.
    replace ((((h ++ [banner]) ++ [EOpenAI (args_openai_api_key args)]) ++ evs1)
               ++ [posting])
      with (h ++ started ++ evs1 ++ [posting]) in Hmain
      by (subst started; rewrite <- ?app_assoc; reflexivity).
    destruct (post_pr_comment env (args_github_token args) (args_repo args)
                (args_pr_number args) review
                (h ++ started ++ evs1 ++ [posting])) as [o3 evs3] eqn:Hpost.
    destruct (post_pr_comment_outcomes _ _ _ _ _ _ _ _ Hpost)
      as [Hone [(-> & _ & Hc) | ([e ->] & Hc & _)]].
    + unfold print in Hmain. injection Hmain as <- <-.
      set (done := EPrint (check_mark ++ lit " Review completed successfully!")).
      exists (posting :: evs3 ++ [done]).
      split; [rewrite <- ?app_assoc; reflexivity|].
      assert (Hg : github_clients (posting :: evs3 ++ [done]) = 1%nat).
      { change (github_clients (evs3 ++ [done]) = 1%nat).
        rewrite github_clients_app, Hone. reflexivity. }
      split; [split; [intros [Hz _]; now contradiction Hz | discriminate]|].
      split; [discriminate|].
      split; [intros _; split; [exact Hg | now eauto]|].
      split; [intros _ | intros Hz; now contradiction Hz].
      rewrite <- ?app_assoc.
      etransitivity; [eapply Hposted|].
      change (comments_posted (evs3 ++ [done]) = [comment_body_of review]).
      rewrite comments_posted_app, Hc. reflexivity.
    + unfold main_handler, bind, print, print_exc, sys_exit in Hmain.
      injection Hmain as <- <-.
      set (failed :=
             [EPrint (cross_mark ++ lit " Error during review: " ++ exc_str e);
              ETraceback e]).
      exists (posting :: evs3 ++ failed).
      split; [rewrite <- ?app_assoc; reflexivity|].
      assert (Hg : github_clients (posting :: evs3 ++ failed) = 1%nat).
      { change (github_clients (evs3 ++ failed) = 1%nat).
        rewrite github_clients_app, Hone. reflexivity. }
      split; [split; [intros [_ Hz]; rewrite Hg in Hz; discriminate Hz
                     | discriminate]|].
      split; [discriminate|].
      split; [intros _; split; [exact Hg | now eauto]|].
      split; [discriminate | intros _].
      rewrite <- ?app_assoc.
      etransitivity; [eapply Hposted|].
      change (comments_posted (evs3 ++ failed) = []).
      rewrite comments_posted_app, Hc. reflexivity.
Qed.

(** C1: in a run of [main] in which the Review Requester returned the string
    [review], the run ends with a non-zero exit status without calling the
    publisher exactly when [review] starts with ["Error"]: then all that
    follows the review is the printed message and [sys.exit(1)]; otherwise
    [post_pr_comment] is run once, on [review].  Every run of [main] creates
    exactly one comment when it exits with status 0, the wrapped review, and
    none when it exits with another status. *)
Theorem main_aborts_exactly_on_error_prefix :
  forall (env : Env) (args : Args) (h : Trace) (out : outcome unit) (evs : Trace),
    let banner :=
      EPrint (clipboard ++ lit " Reviewing PR #" ++ args_pr_number args
                ++ lit " in " ++ args_repo args) in
    let started := [banner; EOpenAI (args_openai_api_key args)] in
    let posting := EPrint (speech_balloon ++ lit " Posting review comment...") in
    main env args h = (out, evs) ->
    (forall (openai_client : OpenAIClient) (review : pystr) (evs1 : Trace),
        env_OpenAI env (h ++ [banner]) (args_openai_api_key args)
        = inr openai_client ->
        fetch_and_review env args openai_client (h ++ started)
        = (Ret (Some review), evs1) ->
        exists evs2 : Trace,
          evs = started ++ evs1 ++ evs2
          /\ ((exit_code out <> 0 /\ github_clients evs2 = 0%nat)
              <-> startswith review (lit "Error") = true)
          /\ (startswith review (lit "Error") = true ->
              out = Exit 1 /\ evs2 = [EPrint (cross_mark ++ lit " " ++ review)])
          /\ (startswith review (lit "Error") = false ->
              github_clients evs2 = 1%nat
              /\ exists (o3 : outcome unit) (evs3 rest : Trace),
                  post_pr_comment env (args_github_token args) (args_repo args)
                    (args_pr_number args) review
                    (h ++ started ++ evs1 ++ [posting]) = (o3, evs3)
                  /\ evs2 = posting :: evs3 ++ rest)
          /\ (exit_code out = 0 -> comments_posted evs = [comment_body_of review]))
    /\ (exit_code out = 0 ->
        exists review : pystr, comments_posted evs = [comment_body_of review])
    /\ (exit_code out <> 0 -> comments_posted evs = []).
Proof.
  intros env args h out evs banner started posting Hmain.
  split.
  - intros openai_client review evs1 Hclient Hreview.
    destruct (main_after_review env args h openai_client review evs1 out evs
                Hclient Hreview Hmain)
      as (evs2 & Hevs & Hiff & Herr & Hpub & Hone & _).
    exists evs2.
    split; [exact Hevs|]. split; [exact Hiff|]. split; [exact Herr|].
    split; [exact Hpub | exact Hone].
  - destruct (env_OpenAI env (h ++ [banner]) (args_openai_api_key args))
      as [e | openai_client] eqn:Hclient.
    + unfold main, bind at 1, print at 1 in Hmain.
      unfold bind at 1, OpenAI, call in Hmain.
      fold banner in Hmain. rewrite Hclient in Hmain.
      injection Hmain as <- <-. split; [discriminate | reflexivity].
    + destruct (fetch_and_review env args openai_client (h ++ started))
        as [o1 evs1] eqn:Hreview.
      pose proof (fetch_and_review_emits_no_comment env args openai_client
                    (h ++ started)) as [Hexit Hnone].
      rewrite Hreview in Hexit, Hnone. apply no_comment_posted in Hnone.
      change (comments_posted evs1 = []) in Hnone.
      destruct o1 as [[review |] | e | code]; [| | | contradiction Hexit].
      * destruct (main_after_review env args h openai_client review evs1 out evs
                    Hclient Hreview Hmain)
          as (evs2 & _ & _ & _ & _ & Hone & Hzero).
        split; [intros Hz; exists review; now apply Hone | exact Hzero].
      * replace (h ++ started)
          with ((h ++ [banner]) ++ [EOpenAI (args_openai_api_key args)])
          in Hreview by (rewrite <- app_assoc; reflexivity).
        unfold main, bind at 1, print at 1 in Hmain.
        unfold bind at 1, OpenAI, call in Hmain.
        fold banner in Hmain. rewrite Hclient in Hmain.
        unfold try_except, bind at 1 in Hmain.
        rewrite Hreview in Hmain.
        unfold publish_or_abort, raise, main_handler, bind, print, print_exc,
          sys_exit in Hmain.
        injection Hmain as <- <-. split; [discriminate | intros _].
        subst banner. cbn [comments_posted app].
        rewrite ?comments_posted_app, Hnone. reflexivity.
      * replace (h ++ started)
          with ((h ++ [banner]) ++ [EOpenAI (args_openai_api_key args)])
          in Hreview by (rewrite <- app_assoc; reflexivity).
        unfold main, bind at 1, print at 1 in Hmain.
        unfold bind at 1, OpenAI, call in Hmain.
        fold banner in Hmain. rewrite Hclient in Hmain.
        unfold try_except, bind at 1 in Hmain.
        rewrite Hreview in Hmain.
        unfold main_handler, bind, print, print_exc, sys_exit in Hmain.
        injection Hmain as <- <-. split; [discriminate | intros _].
        subst banner. cbn [comments_posted app].
        rewrite ?comments_posted_app, Hnone. reflexivity.
Qed.

(** ** Runs on concrete inputs *)

(** 25 changed files: 20 entries and the line ["... and 5 more files"]. *)
Example summary_of_25_files :
  let files := repeat {| filename := lit "a.py"; status := lit "added";
                         additions := 1; deletions := 0 |} 25 in
  length (specified_summary_lines files) = 21%nat
  /\ last (specified_summary_lines files) [] = lit "... and 5 more files"
  /\ file_summary files
     = join nl (repeat (lit "- a.py (added, +1/-0)") 20)
       ++ nl ++ lit "... and 5 more files".
Proof. vm_compute. repeat split. Qed.

(** Three changed files: three lines and no further line. *)
Example summary_of_3_files :
  file_summary sample_files
  = lit "- src/widget.py (modified, +12/-3)" ++ nl
    ++ lit "- tests/test_widget.py (added, +40/-0)" ++ nl
    ++ lit "- README.md (modified, +1/-1)".
Proof. vm_compute. reflexivity. Qed.

(** A diff of 50,001 characters is embedded without its last character. *)
Example long_diff_is_cut :
  let kept := repeat 120%N diff_limit in
  specified_diff (kept ++ [121%N]) = kept
  /\ create_review_prompt (kept ++ [121%N]) [] None None
     = create_review_prompt kept [] None None.
Proof.
  intros kept.
  assert (Hcut : firstn diff_limit (kept ++ [121%N]) = kept).
  { rewrite firstn_app.
    rewrite (firstn_all2 kept) by (unfold kept; rewrite repeat_length; lia).
    replace (length kept) with diff_limit
      by (unfold kept; now rewrite repeat_length).
    rewrite Nat.sub_diag. apply app_nil_r. }
  split.
  - rewrite specified_diff_firstn. exact Hcut.
  - rewrite !create_review_prompt_template.
    change (@firstn char) with (@firstn N). rewrite Hcut.
    rewrite (firstn_all2 kept) by (unfold kept; rewrite repeat_length; lia).
    reflexivity.
Qed.

(** The whole run when everything works: one comment, exit status 0. *)
Example main_run_all_ok :
  main env_all_ok sample_args []
  = (Ret tt,
     sample_events_before_review
     ++ [ EPrint (speech_balloon ++ lit " Posting review comment...");
          EGithub (lit "ghp_test");
          EGetRepo {| gh_token := lit "ghp_test" |} (lit "acme/widgets");
          EGetPull {| full_name := lit "acme/widgets" |} 42;
          ECreateIssueComment
            {| number := 42; title := lit "Add widget"; body := None |}
            (comment_body_of (lit "LGTM")) true;
          EPrint (check_mark ++ lit " Posted review comment on PR #42");
          EPrint (check_mark ++ lit " Review completed successfully!") ]).
Proof. vm_compute. reflexivity. Qed.

(** The whole run when the chat call fails: the message, then
    [sys.exit(1)]; no client of the publisher is constructed. *)
Example main_run_chat_fails :
  main env_chat_fails sample_args []
  = (Exit 1,
     sample_events_before_review
     ++ [ EPrint (cross_mark
                    ++ lit " Error during AI review: Connection error.") ]).
Proof. vm_compute. reflexivity. Qed.

(** The whole run when the diff request is answered 404: the handler of
    [main] reports the [HTTPError] and exits with status 1. *)
Example main_run_diff_not_found :
  exit_code
    (fst (main (fixed_env (inr (sample_response 404 (lit "Not Found")))
                  (inr (sample_completion (lit "LGTM"))) (inr tt))
               sample_args []))
  = 1
  /\ In (EPrint (cross_mark
                   ++ lit " Error during review: 404 Client Error: Not Found for url: https://api.github.com/repos/acme/widgets/pulls/42"))
        (snd (main (fixed_env (inr (sample_response 404 (lit "Not Found")))
                      (inr (sample_completion (lit "LGTM"))) (inr tt))
                   sample_args [])).
Proof. vm_compute. split; [reflexivity | tauto]. Qed.

(** C5, witness: no title and the default body. *)
Lemma create_review_prompt_missing_title_body_witness :
  create_review_prompt (lit "+x") sample_files None default_arg
  = prompt_intro
    ++ lit "Pull Request Title: N/A" ++ nl
    ++ lit "Pull Request Description: N/A" ++ nl
    ++ nl ++ lit "Changed Files:" ++ nl
    ++ file_summary sample_files ++ prompt_between_files_and_diff
    ++ firstn diff_limit (lit "+x") ++ prompt_after_diff.
Proof.
  destruct (create_review_prompt_missing_title_body
              (lit "+x") sample_files None default_arg) as [Htitle _].
  apply Htitle. left. reflexivity.
Defined.

(** The sample heaps hold the sample files. *)
Lemma sample_heap_holds_files : holds_files sample_heap 3 sample_files.
Proof.
  exists [VRef 0; VRef 1; VRef 2]. split; [reflexivity|].
  repeat constructor;
    eexists _, _; (split; [reflexivity|]); (split; [reflexivity|]);
    repeat split.
Qed.

Lemma other_heap_holds_files : holds_files other_heap 5 sample_files.
Proof.
  exists [VRef 1; VRef 2; VRef 3]. split; [reflexivity|].
  repeat constructor;
    eexists _, _; (split; [reflexivity|]); (split; [reflexivity|]);
    repeat split.
Qed.

(** C8, witness: the sample list in two heaps, at two addresses. *)
Lemma create_review_prompt_deterministic_witness :
  fst (fst (create_review_prompt_by_reference (lit "+x") 5 (Some (lit "T")) None
              other_heap))
  = fst (fst (create_review_prompt_by_reference (lit "+x") 3 (Some (lit "T")) None
                sample_heap))
  /\ holds_files
       (snd (fst (create_review_prompt_by_reference (lit "+x") 3
                    (Some (lit "T")) None sample_heap)))
       3 sample_files.
Proof.
  destruct (create_review_prompt_deterministic (lit "+x") (Some (lit "T")) None
              sample_heap 3%nat) as [_ Hfiles].
  destruct (Hfiles sample_files sample_heap_holds_files)
    as (_ & Hkept & Hsame).
  split; [|exact Hkept].
  apply Hsame. exact other_heap_holds_files.
Defined.

(** A file object without the key [status]: the comprehension raises
    [KeyError].  A heap whose list is missing: still no event and no
    change. *)
Example create_review_prompt_missing_key :
  fst (fst (create_review_prompt_by_reference (lit "+x") 1 None None
              [ODict [(lit "filename", SStr (lit "a.py"))]; OList [VRef 0]]))
  = Raise (KeyError (lit "status")).
Proof. reflexivity. Qed.

(** A body that is not JSON: [response.json()] raises. *)
Example get_changed_files_raises_on_bad_json :
  let r := {| status_code := 200; reason := lit "OK";
              resp_url := lit "https://api.github.com/repos/acme/widgets/pulls/42/files";
              text := lit "<html>";
              json := inl {| exc_class := lit "JSONDecodeError";
                             exc_str := lit "Expecting value: line 1 column 1 (char 0)" |} |} in
  fst (get_changed_files (fixed_env (inr r) (inl network_error) (inr tt))
         (lit "ghp_test") (lit "acme/widgets") (lit "42") [])
  = Raise {| exc_class := lit "JSONDecodeError";
             exc_str := lit "Expecting value: line 1 column 1 (char 0)" |}.
Proof. reflexivity. Qed.

(** C6, witness: a 404 answer raises the client error of
    [raise_for_status], a 200 answer returns the text, resp. the parsed
    list. *)
Lemma fetchers_raise_on_4xx_5xx_witness :
  get_pr_diff env_not_found (lit "ghp_test") (lit "acme/widgets") (lit "42") []
  = (Raise (HTTPError (lit " Client Error: ")
              (sample_response 404 (lit "Not Found"))),
     [ERequestsGet (pull_url (lit "acme/widgets") (lit "42"))
        (diff_headers (lit "ghp_test"))])
  /\ get_pr_diff env_all_ok (lit "ghp_test") (lit "acme/widgets") (lit "42") []
     = (Ret (lit "diff --git a/src/widget.py b/src/widget.py"),
        [ERequestsGet (pull_url (lit "acme/widgets") (lit "42"))
           (diff_headers (lit "ghp_test"))])
  /\ get_changed_files env_all_ok (lit "ghp_test") (lit "acme/widgets")
       (lit "42") []
     = (Ret sample_files,
        [ERequestsGet (files_url (lit "acme/widgets") (lit "42"))
           (files_headers (lit "ghp_test"))]).
Proof.
  split; [|split].
  - destruct (fetchers_raise_on_4xx_5xx env_not_found
                (lit "ghp_test") (lit "acme/widgets") (lit "42") [])
      as [Hdiff _].
    destruct (Hdiff (sample_response 404 (lit "Not Found")) eq_refl)
      as [Herr _].
    destruct Herr as (e & _ & Hrun & ->); [simpl; lia|].
    exact Hrun.
  - destruct (fetchers_raise_on_4xx_5xx env_all_ok
                (lit "ghp_test") (lit "acme/widgets") (lit "42") [])
      as [Hdiff _].
    destruct (Hdiff (sample_response 200 (lit "OK")) eq_refl) as [_ Hok].
    apply Hok. simpl. lia.
  - destruct (fetchers_raise_on_4xx_5xx env_all_ok
                (lit "ghp_test") (lit "acme/widgets") (lit "42") [])
      as [_ Hfiles].
    destruct (Hfiles (sample_response 200 (lit "OK")) eq_refl) as [_ Hok].
    apply Hok. simpl. lia.
Defined.

(** C4, witness: the chat call raises a connection error. *)
Lemma review_with_ai_contract_witness :
  exists evs,
    review_with_ai env_chat_fails
      {| api_key := lit "sk-test" |} (lit "gpt-4-turbo-preview") (lit "prompt") []
    = (Ret (Some (lit "Error during AI review: Connection error.")), evs).
Proof.
  destruct (review_with_ai_contract env_chat_fails
              {| api_key := lit "sk-test" |} (lit "gpt-4-turbo-preview")
              (lit "prompt") [])
    as (_ & Herr & _).
  destruct (Herr network_error eq_refl) as [Hrun _].
  eexists. exact Hrun.
Defined.

(** C7, witness: the publisher on a short review, with every lookup
    answered. *)
Lemma post_pr_comment_posts_wrapped_review_witness :
  let pr := {| number := 42; title := lit "Add widget"; body := None |} in
  let wrapped :=
    lit "## " ++ robot ++ lit " AI Code Review" ++ nl ++ nl
    ++ lit "LGTM" ++ nl ++ nl ++ lit "---" ++ nl
    ++ lit "*This review was generated automatically by AI PR Reviewer*" in
  post_pr_comment env_all_ok (lit "ghp_test") (lit "acme/widgets") (lit "42")
    (lit "LGTM") []
  = (Ret tt,
     [ EGithub (lit "ghp_test");
       EGetRepo {| gh_token := lit "ghp_test" |} (lit "acme/widgets");
       EGetPull {| full_name := lit "acme/widgets" |} 42;
       ECreateIssueComment pr wrapped true;
       EPrint (check_mark ++ lit " Posted review comment on PR #42") ]).
Proof.
  intros pr wrapped.
  destruct (post_pr_comment_posts_wrapped_review env_all_ok
              (lit "ghp_test") (lit "acme/widgets") (lit "42") (lit "LGTM") [])
    as [Hcall _].
  exact (Hcall {| gh_token := lit "ghp_test" |}
           {| full_name := lit "acme/widgets" |} 42 pr
           eq_refl eq_refl eq_refl eq_refl).
Defined.


(** C1, witness: when the chat call fails the run exits with status 1 and
    creates no comment; when everything works it exits with status 0 and
    creates the one comment that wraps the review. *)
Lemma main_aborts_exactly_on_error_prefix_witness :
  (exit_code (fst (main env_chat_fails sample_args [])) = 1
   /\ comments_posted (snd (main env_chat_fails sample_args [])) = [])
  /\ (exit_code (fst (main env_all_ok sample_args [])) = 0
      /\ comments_posted (snd (main env_all_ok sample_args []))
         = [comment_body_of (lit "LGTM")]).
Proof.
  split.
  - destruct (main_aborts_exactly_on_error_prefix env_chat_fails sample_args []
                (fst (main env_chat_fails sample_args []))
                (snd (main env_chat_fails sample_args []))
                (surjective_pairing _))
      as (Hreviewed & _ & Hnone).
    destruct (Hreviewed {| api_key := lit "sk-test" |}
                (lit "Error during AI review: Connection error.")
                (snd (fetch_and_review env_chat_fails sample_args
                        {| api_key := lit "sk-test" |}
                        [EPrint (clipboard ++ lit " Reviewing PR #42 in acme/widgets");
                         EOpenAI (lit "sk-test")]))
                eq_refl)
      as (evs2 & _ & _ & Herr & _).
    + vm_compute. reflexivity.
    + destruct (Herr eq_refl) as [Hout _].
      split; [now rewrite Hout|].
      apply Hnone. rewrite Hout. discriminate.
  - destruct (main_aborts_exactly_on_error_prefix env_all_ok sample_args []
                (fst (main env_all_ok sample_args []))
                (snd (main env_all_ok sample_args []))
                (surjective_pairing _))
      as (Hreviewed & _ & _).
    destruct (Hreviewed {| api_key := lit "sk-test" |} (lit "LGTM")
                (snd (fetch_and_review env_all_ok sample_args
                        {| api_key := lit "sk-test" |}
                        [EPrint (clipboard ++ lit " Reviewing PR #42 in acme/widgets");
                         EOpenAI (lit "sk-test")]))
                eq_refl)
      as (evs2 & _ & _ & _ & _ & Hone).
    + vm_compute. reflexivity.
    + assert (Hzero : exit_code (fst (main env_all_ok sample_args [])) = 0)
        by (vm_compute; reflexivity).
      split; [exact Hzero | exact (Hone Hzero)].
Defined.

(** * Further properties *)

(** ** The file reader *)

(** X1: [get_file_contents] never raises and touches nothing but the file:
    it returns the text when the file can be read and
    ["Error reading file: "] followed by [str(e)] when reading raises [e], so
    that a caller can tell a failure from a file with such a text only by the
    text itself. *)
Theorem get_file_contents_never_raises :
  forall (read_text : pystr -> reply pystr) (file_path : pystr) (h : Trace),
    (forall contents : pystr,
        read_text file_path = inr contents ->
        get_file_contents read_text file_path h = (Ret contents, []))
    /\ (forall e : pyexc,
        read_text file_path = inl e ->
        get_file_contents read_text file_path h
        = (Ret (lit "Error reading file: " ++ exc_str e), [])
        /\ get_file_contents read_text file_path h
           = get_file_contents
               (fun _ => inr (lit "Error reading file: " ++ exc_str e))
               file_path h)
    /\ (exists result : pystr,
        get_file_contents read_text file_path h = (Ret result, [])).
Proof.
  intros read_text file_path h.
  unfold get_file_contents, try_except, raise, ret.
  split; [|split].
  - intros contents ->. reflexivity.
  - intros e ->. split; reflexivity.
  - destruct (read_text file_path); eexists; reflexivity.
Qed.

(** ** The size and the inputs of the prompt *)

(** X2: the prompt is 780 characters of fixed text, the title and the
    description (each in full, or [N/A]), the file summary, and at most
    50,000 characters of the diff: only the diff is cut. *)
Theorem create_review_prompt_length :
  forall (diff : pystr) (changed_files : list ChangedFile)
         (pr_title pr_body : option pystr),
    length (create_review_prompt diff changed_files pr_title pr_body)
    = (780
       + length (str_or pr_title (lit "N/A"))
       + length (str_or pr_body (lit "N/A"))
       + length (file_summary changed_files)
       + Nat.min (Z.to_nat 50000) (length diff))%nat.
Proof.
  intros diff changed_files pr_title pr_body.
  rewrite create_review_prompt_template.
  unfold prompt_before_files.
  rewrite !length_app, length_firstn.
  change (length prompt_intro) with 111%nat.
  change (length (lit "Pull Request Title: ")) with 20%nat.
  change (length (lit "Pull Request Description: ")) with 26%nat.
  change (length (lit "Changed Files:")) with 14%nat.
  change (length nl) with 1%nat.
  change (length prompt_between_files_and_diff) with 12%nat.
  change (length prompt_after_diff) with 593%nat.
  unfold diff_limit. lia.
Qed.

(** X3: the files after the twentieth reach the prompt only through their
    number: two file lists of the same length with the same first twenty
    files give the same prompt. *)
Theorem create_review_prompt_ignores_files_after_20 :
  forall (diff : pystr) (changed_files changed_files' : list ChangedFile)
         (pr_title pr_body : option pystr),
    firstn 20 changed_files = firstn 20 changed_files' ->
    length changed_files = length changed_files' ->
    create_review_prompt diff changed_files pr_title pr_body
    = create_review_prompt diff changed_files' pr_title pr_body.
Proof.
  intros diff changed_files changed_files' pr_title pr_body Hfirst Hlen.
  rewrite !create_review_prompt_template.
  unfold file_summary, more_files_suffix, file_limit.
  now rewrite Hfirst, Hlen.
Qed.

(** ** The lines of the file summary *)

Lemma newlines_app (s t : pystr) :
  newlines (s ++ t) = (newlines s + newlines t)%nat.
Proof. induction s as [|c s IH]; simpl; [reflexivity | rewrite IH; lia]. Qed.

Lemma newlines_uint (d : Decimal.uint) :
  newlines (lit (NilEmpty.string_of_uint d)) = 0%nat.
Proof. induction d; simpl; auto. Qed.

Lemma newlines_str_of_int (n : Z) : newlines (str_of_int n) = 0%nat.
Proof.
  unfold str_of_int, NilZero.string_of_int, NilZero.string_of_uint.
  destruct (Z.to_int n) as [d | d]; destruct d;
    try reflexivity; apply newlines_uint.
Qed.

Lemma newlines_file_line (f : ChangedFile) :
  newlines (file_line f) = (newlines (filename f) + newlines (status f))%nat.
Proof.
  unfold file_line. rewrite !newlines_app, !newlines_str_of_int.
  change (newlines (lit "- ")) with 0%nat.
  change (newlines (lit " (")) with 0%nat.
  change (newlines (lit ", +")) with 0%nat.
  change (newlines (lit "/-")) with 0%nat.
  change (newlines (lit ")")) with 0%nat.
  lia.
Qed.

Lemma newlines_join (parts : list pystr) :
  Forall (fun p => newlines p = 0%nat) parts ->
  newlines (join nl parts) = (length parts - 1)%nat.
Proof.
  induction 1 as [|p parts Hp Hparts IH]; [reflexivity|].
  destruct parts as [|q parts]; [simpl; lia|].
  change (join nl (p :: q :: parts)) with (p ++ nl ++ join nl (q :: parts)).
  rewrite !newlines_app, Hp, IH. simpl. lia.
Qed.

Lemma firstn_min_length {A} (l : list A) (k : nat) :
  firstn (Nat.min (length l) k) l = firstn k l.
Proof.
  destruct (Nat.le_gt_cases (length l) k) as [Hle | Hgt].
  - rewrite Nat.min_l by exact Hle.
    now rewrite firstn_all, firstn_all2.
  - rewrite Nat.min_r by lia. reflexivity.
Qed.

(** X4: when no listed file name or status contains a newline, the file
    summary of a non-empty list has exactly one line per listed file, plus the
    line of the remaining count when there are more than twenty files. *)
Theorem file_summary_line_count :
  forall changed_files : list ChangedFile,
    changed_files <> [] ->
    Forall (fun f => newlines (filename f) = 0%nat /\ newlines (status f) = 0%nat)
           (firstn 20 changed_files) ->
    S (newlines (file_summary changed_files))
    = (Nat.min (length changed_files) 20
       + (if (20 <? length changed_files)%nat then 1 else 0))%nat.
Proof.
  intros changed_files Hne Hclean.
  rewrite file_summary_lines, newlines_join.
  - rewrite specified_summary_lines_eq.
    rewrite length_app, length_map, length_firstn.
    destruct changed_files as [|f rest]; [congruence|].
    destruct (20 <? length (f :: rest))%nat; simpl length; lia.
  - rewrite specified_summary_lines_eq. apply Forall_app. split.
    + rewrite firstn_min_length. apply Forall_map.
      eapply Forall_impl; [|exact Hclean].
      intros f [Hn Hs]. rewrite newlines_file_line. lia.
    + destruct (20 <? length changed_files)%nat; constructor; [|constructor].
      rewrite !newlines_app, newlines_str_of_int. reflexivity.
Qed.

(** ** Edge cases of the review requester *)

(** X5: a completion without any choice makes [choices[0]] raise
    [IndexError] inside the [try] block, so [review_with_ai] returns the error
    string for it; and [review_with_ai] returns [None] exactly when the call
    returned and the first choice carries no content. *)
Theorem review_with_ai_without_choice_or_content :
  forall (env : Env) (openai_client : OpenAIClient) (model prompt : pystr)
         (h : Trace),
    let answer :=
      env_chat_create env h openai_client model
        [system_message; user_message prompt] (3 # 10) 2000 in
    (forall response : ChatCompletion,
        answer = inr response ->
        choices response = [] ->
        fst (review_with_ai env openai_client model prompt h)
        = Ret (Some (lit "Error during AI review: list index out of range")))
    /\ (fst (review_with_ai env openai_client model prompt h) = Ret None
        <-> exists (response : ChatCompletion) (choice : Choice)
                   (rest : list Choice),
            answer = inr response
            /\ choices response = choice :: rest
            /\ message_content choice = None).
Proof.
  intros env openai_client model prompt h answer. subst answer.
  unfold review_with_ai, try_except, bind, chat_completions_create, call,
    first_choice.
  split.
  - intros response -> ->. reflexivity.
  - destruct (env_chat_create env h openai_client model
                [system_message; user_message prompt] (3 # 10) 2000)
      as [e | response].
    + split; [discriminate | intros (? & ? & ? & ? & _); discriminate].
    + destruct (choices response) as [|choice rest] eqn:Hc.
      * split; [discriminate | intros (r & c & l & Hr & Hl & _)].
        injection Hr as <-. congruence.
      * simpl. split.
        -- intros Hnone. exists response, choice, rest.
           repeat split; congruence.
        -- intros (r & c & l & Hr & Hl & Hn).
           injection Hr as <-. rewrite Hc in Hl. injection Hl as <- <-.
           now rewrite Hn.
Qed.

(** ** The stages of [main] *)

(** [main], stage by stage. *)
Lemma main_run (env : Env) (args : Args) (h : Trace) :
  let started := [banner_of args; EOpenAI (args_openai_api_key args)] in
  main env args h
  = match env_OpenAI env (h ++ [banner_of args]) (args_openai_api_key args) with
    | inl e => (Raise e, started)
    | inr openai_client =>
        match fetch_and_review env args openai_client (h ++ started) with
        | (Ret review, evs1) =>
            match publish_or_abort env args review (h ++ started ++ evs1) with
            | (Ret _, evs2) => (Ret tt, started ++ evs1 ++ evs2)
            | (Raise e, evs2) =>
                (Exit 1, started ++ evs1 ++ evs2 ++ handler_events e)
            | (Exit code, evs2) => (Exit code, started ++ evs1 ++ evs2)
            end
        | (Raise e, evs1) => (Exit 1, started ++ evs1 ++ handler_events e)
        | (Exit code, evs1) => (Exit code, started ++ evs1)
        end
    end.
Proof.
  intros started.
  unfold main, bind at 1, print at 1. fold (banner_of args).
  unfold bind at 1, OpenAI, call.
  destruct (env_OpenAI env (h ++ [banner_of args]) (args_openai_api_key args))
    as [e | openai_client]; [reflexivity|].
  replace ((h ++ [banner_of args]) ++ [EOpenAI (args_openai_api_key args)])
    with (h ++ started) by (subst started; rewrite <- app_assoc; reflexivity).
  unfold try_except, bind at 1.
  destruct (fetch_and_review env args openai_client (h ++ started))
    as [[review | e | code] evs1]; [| |reflexivity].
  - replace ((h ++ started) ++ evs1) with (h ++ started ++ evs1)
      by (now rewrite app_assoc).
    destruct (publish_or_abort env args review (h ++ started ++ evs1))
      as [[[] | e | code] evs2]; [reflexivity | | reflexivity].
    unfold main_handler, bind, print, print_exc, sys_exit, handler_events.
    rewrite <- !app_assoc. reflexivity.
  - unfold main_handler, bind, print, print_exc, sys_exit, handler_events.
    reflexivity.
Qed.

(** How the part of [main] after the review can end. *)
Lemma publish_or_abort_outcomes (env : Env) (args : Args)
  (review : option pystr) (h : Trace) (o : outcome unit) (evs : Trace) :
  publish_or_abort env args review h = (o, evs) ->
  get_requests evs = 0%nat
  /\ chat_requests evs = []
  /\ (github_clients evs <= 1)%nat
  /\ (length (issue_comment_calls evs) <= 1)%nat
  /\ (o = Ret tt \/ o = Exit 1 \/ exists e, o = Raise e)
  /\ (o = Ret tt ->
      github_clients evs = 1%nat /\ length (issue_comment_calls evs) = 1%nat)
  /\ (issue_comment_calls evs <> [] -> exists s, review = Some s).
Proof.
  intros Hrun.
  unfold publish_or_abort, post_pr_comment, bind, Github, get_repo, get_pull,
    int, call, create_issue_comment, print, sys_exit, raise, ret in Hrun.
  destruct review as [review|];
    [destruct (startswith review (lit "Error"))|];
    repeat match type of Hrun with
           | context [match ?x with inl _ => _ | inr _ => _ end] =>
               destruct x
           end;
    injection Hrun as <- <-;
    cbn [get_requests chat_requests github_clients issue_comment_calls app
           length];
    repeat split;
    solve [ lia | eauto | discriminate | congruence
          | intros; discriminate ].
Qed.

(** How the stages up to the review can end, and what they request. *)
Lemma fetch_and_review_requests (env : Env) (args : Args)
  (openai_client : OpenAIClient) (h : Trace) (o : outcome (option pystr))
  (evs : Trace) :
  fetch_and_review env args openai_client h = (o, evs) ->
  (get_requests evs <= 2)%nat
  /\ (github_clients evs <= 1)%nat
  /\ issue_comment_calls evs = []
  /\ ((chat_requests evs = [] /\ exists e, o = Raise e)
      \/ (get_requests evs = 2%nat
          /\ github_clients evs = 1%nat
          /\ (exists v, o = Ret v)
          /\ exists (r1 r2 : Response) (files : list ChangedFile)
                    (repo : Repository) (n : Z) (pr : PullRequest)
                    (h1 h2 h3 : Trace),
              env_requests_get env h1
                (pull_url (args_repo args) (args_pr_number args))
                (diff_headers (args_github_token args)) = inr r1
              /\ ~ (400 <= status_code r1 < 600)
              /\ env_requests_get env h2
                   (files_url (args_repo args) (args_pr_number args))
                   (files_headers (args_github_token args)) = inr r2
              /\ json r2 = inr files
              /\ env_int env (args_pr_number args) = inr n
              /\ env_get_pull env h3 repo n = inr pr
              /\ chat_requests evs
                 = [ EChatCreate openai_client (args_openai_model args)
                       [ system_message;
                         user_message
                           (create_review_prompt (text r1) files
                              (Some (title pr)) (Some (str_or (body pr) []))) ]
                       (3 # 10) 2000 ])).
Proof.
  intros Hrun.
  unfold fetch_and_review, get_pr_diff, get_changed_files, review_with_ai,
    raise_for_status, response_json, first_choice, try_except, bind,
    requests_get, Github, get_repo, get_pull, chat_completions_create, int,
    call, print, raise, ret in Hrun.
  repeat match type of Hrun with
         | context [match ?x with inl _ => _ | inr _ => _ end] =>
             destruct x eqn:?
         | context [if ?b then _ else _] => destruct b eqn:?
         | context [match ?x with [] => _ | _ :: _ => _ end] =>
             destruct x eqn:?
         end;
    injection Hrun as <- <-;
    cbn [get_requests chat_requests github_clients issue_comment_calls app
           length];
    (split; [lia|]); (split; [lia|]); (split; [reflexivity|]);
    try (left; split; [reflexivity | eexists; reflexivity]).
  all: right; split; [reflexivity|]; split; [reflexivity|];
    split; [eexists; reflexivity|].
  all: match goal with
       | H1 : env_requests_get _ _ _
                [_; (_, lit "application/vnd.github.v3.diff")] = inr ?r1,
         H2 : env_requests_get _ _ _
                [_; (_, lit "application/vnd.github.v3+json")] = inr ?r2,
         H3 : json ?r2 = inr ?files,
         H4 : env_get_pull _ _ ?repo ?n = inr ?pr |- _ =>
           exists r1, r2, files, repo, n, pr
       end.
  all: do 3 eexists; split; [eassumption|].
  all: split;
    [ repeat match goal with
             | H : (_ && _) = false |- _ =>
                 apply andb_false_iff in H; rewrite Z.leb_gt, Z.ltb_ge in H
             end; lia |].
  all: split; [eassumption|]; split; [assumption|];
    split; [first [assumption | reflexivity]|].
  all: split; [eassumption | reflexivity].
Qed.

Lemma get_requests_app (evs evs' : Trace) :
  get_requests (evs ++ evs') = (get_requests evs + get_requests evs')%nat.
Proof.
  induction evs as [|ev evs IH]; [reflexivity|].
  destruct ev; simpl; now rewrite ?IH.
Qed.

Lemma chat_requests_app (evs evs' : Trace) :
  chat_requests (evs ++ evs') = chat_requests evs ++ chat_requests evs'.
Proof.
  induction evs as [|ev evs IH]; [reflexivity|].
  destruct ev; simpl; now rewrite ?IH.
Qed.

Lemma issue_comment_calls_app (evs evs' : Trace) :
  issue_comment_calls (evs ++ evs')
  = issue_comment_calls evs ++ issue_comment_calls evs'.
Proof.
  induction evs as [|ev evs IH]; [reflexivity|].
  destruct ev; simpl; now rewrite ?IH.
Qed.

(** Each fetcher emits its one GET request, however it ends. *)
Lemma get_pr_diff_events (env : Env) (github_token repo_full_name pr_number : pystr)
  (h : Trace) :
  snd (get_pr_diff env github_token repo_full_name pr_number h)
  = [ERequestsGet (pull_url repo_full_name pr_number) (diff_headers github_token)].
Proof.
  unfold get_pr_diff, raise_for_status, bind, requests_get, call, raise, ret.
  repeat match goal with
         | |- context [match ?x with inl _ => _ | inr _ => _ end] => destruct x
         | |- context [if ?b then _ else _] => destruct b
         end; reflexivity.
Qed.

Lemma get_changed_files_events (env : Env)
  (github_token repo_full_name pr_number : pystr) (h : Trace) :
  snd (get_changed_files env github_token repo_full_name pr_number h)
  = [ERequestsGet (files_url repo_full_name pr_number)
       (files_headers github_token)].
Proof.
  unfold get_changed_files, raise_for_status, response_json, bind, requests_get,
    call, raise, ret.
  repeat match goal with
         | |- context [match ?x with inl _ => _ | inr _ => _ end] => destruct x
         | |- context [if ?b then _ else _] => destruct b
         end; reflexivity.
Qed.

(** ** The fetchers, in full *)

(** X6: each fetcher sends exactly one GET request however it ends; an
    exception of [requests.get] itself comes out unchanged; [get_pr_diff]
    returns exactly when a response arrived whose status is outside 400..599,
    and [get_changed_files] exactly when moreover [response.json()]
    returned. *)
Theorem fetchers_return_exactly_on_success :
  forall (env : Env) (github_token repo_full_name pr_number : pystr) (h : Trace),
    let diff_answer :=
      env_requests_get env h (pull_url repo_full_name pr_number)
        (diff_headers github_token) in
    let files_answer :=
      env_requests_get env h (files_url repo_full_name pr_number)
        (files_headers github_token) in
    let diff_run := get_pr_diff env github_token repo_full_name pr_number h in
    let files_run :=
      get_changed_files env github_token repo_full_name pr_number h in
    get_requests (snd diff_run) = 1%nat
    /\ get_requests (snd files_run) = 1%nat
    /\ (forall e, diff_answer = inl e -> fst diff_run = Raise e)
    /\ (forall e, files_answer = inl e -> fst files_run = Raise e)
    /\ (forall diff : pystr,
        fst diff_run = Ret diff
        <-> exists r, diff_answer = inr r
                      /\ ~ (400 <= status_code r < 600) /\ text r = diff)
    /\ (forall files : list ChangedFile,
        fst files_run = Ret files
        <-> exists r, files_answer = inr r
                      /\ ~ (400 <= status_code r < 600) /\ json r = inr files).
Proof.
  intros env github_token repo_full_name pr_number h.
  cbv zeta.
  rewrite get_pr_diff_events, get_changed_files_events.
  split; [reflexivity|]. split; [reflexivity|].
  unfold get_pr_diff, get_changed_files, bind, requests_get, call, response_json.
  fold (pull_url repo_full_name pr_number) (diff_headers github_token)
    (files_url repo_full_name pr_number) (files_headers github_token).
  split; [intros e ->; reflexivity|].
  split; [intros e ->; reflexivity|].
  split.
  - intros diff.
    destruct (env_requests_get env h (pull_url repo_full_name pr_number)
                (diff_headers github_token)) as [e | r].
    + split; [discriminate | intros (r & Hr & _); discriminate].
    + destruct (Z_le_dec 400 (status_code r)) as [Hlo|Hlo];
        [destruct (Z_lt_dec (status_code r) 600) as [Hhi|Hhi]|].
      * destruct (raise_for_status_error r
                    (h ++ [ERequestsGet (pull_url repo_full_name pr_number)
                             (diff_headers github_token)]))
          as [kind ->]; [lia|].
        split; [discriminate | intros (r' & Hr & Hs & _)].
        injection Hr as <-. lia.
      * rewrite raise_for_status_ok by lia. simpl. split.
        -- intros [= <-]. exists r.
           split; [reflexivity|]. split; [lia | first [reflexivity | assumption]].
        -- intros (r' & [= <-] & _ & <-). reflexivity.
      * rewrite raise_for_status_ok by lia. simpl. split.
        -- intros [= <-]. exists r.
           split; [reflexivity|]. split; [lia | first [reflexivity | assumption]].
        -- intros (r' & [= <-] & _ & <-). reflexivity.
  - intros files.
    destruct (env_requests_get env h (files_url repo_full_name pr_number)
                (files_headers github_token)) as [e | r].
    + split; [discriminate | intros (r & Hr & _); discriminate].
    + destruct (Z_le_dec 400 (status_code r)) as [Hlo|Hlo];
        [destruct (Z_lt_dec (status_code r) 600) as [Hhi|Hhi]|].
      * destruct (raise_for_status_error r
                    (h ++ [ERequestsGet (files_url repo_full_name pr_number)
                             (files_headers github_token)]))
          as [kind ->]; [lia|].
        split; [discriminate | intros (r' & Hr & Hs & _)].
        injection Hr as <-. lia.
      * rewrite raise_for_status_ok by lia. unfold raise, ret.
        destruct (json r) as [e | v] eqn:Hjson; simpl; split.
        -- discriminate.
        -- intros (r' & [= <-] & _ & Hj). congruence.
        -- intros [= <-]. exists r.
           split; [reflexivity|]. split; [lia | first [reflexivity | assumption]].
        -- intros (r' & [= <-] & _ & Hj). congruence.
      * rewrite raise_for_status_ok by lia. unfold raise, ret.
        destruct (json r) as [e | v] eqn:Hjson; simpl; split.
        -- discriminate.
        -- intros (r' & [= <-] & _ & Hj). congruence.
        -- intros [= <-]. exists r.
           split; [reflexivity|]. split; [lia | first [reflexivity | assumption]].
        -- intros (r' & [= <-] & _ & Hj). congruence.
Qed.

(** ** How [main] ends *)

(** X7: once the command line is parsed (from line 147 on), an exception of
    the [OpenAI(...)] constructor, which runs before the [try] block, leaves
    [main] uncaught after the first message and before any request; every
    other run of the rest of [main] ends by returning or by [sys.exit(1)], so
    that from there on the exit status is 0 or 1.  The exits of
    [parser.parse_args()] itself are not part of [main] as embedded here. *)
Theorem main_exit_status :
  forall (env : Env) (args : Args) (h : Trace),
    match env_OpenAI env (h ++ [banner_of args]) (args_openai_api_key args) with
    | inl e =>
        main env args h
        = (Raise e, [banner_of args; EOpenAI (args_openai_api_key args)])
    | inr _ =>
        fst (main env args h) = Ret tt \/ fst (main env args h) = Exit 1
    end
    /\ (exit_code (fst (main env args h)) = 0
        \/ exit_code (fst (main env args h)) = 1).
Proof.
  intros env args h.
  assert (Hcases :
            match env_OpenAI env (h ++ [banner_of args])
                    (args_openai_api_key args) with
            | inl e =>
                main env args h
                = (Raise e, [banner_of args; EOpenAI (args_openai_api_key args)])
            | inr _ =>
                fst (main env args h) = Ret tt \/ fst (main env args h) = Exit 1
            end).
  { rewrite main_run.
    destruct (env_OpenAI env (h ++ [banner_of args]) (args_openai_api_key args))
      as [e | openai_client]; [reflexivity|].
    pose proof (fetch_and_review_emits_no_comment env args openai_client
                  (h ++ [banner_of args; EOpenAI (args_openai_api_key args)]))
      as [Hexit _].
    destruct (fetch_and_review env args openai_client
                (h ++ [banner_of args; EOpenAI (args_openai_api_key args)]))
      as [[review | e | code] evs1]; [| now right | contradiction Hexit].
    destruct (publish_or_abort env args review
                (h ++ [banner_of args; EOpenAI (args_openai_api_key args)]
                   ++ evs1)) as [o evs2] eqn:Hpub.
    destruct (publish_or_abort_outcomes _ _ _ _ _ _ Hpub)
      as (_ & _ & _ & _ & [-> | [-> | [e ->]]] & _); auto. }
  split; [exact Hcases|].
  destruct (env_OpenAI env (h ++ [banner_of args]) (args_openai_api_key args)).
  - rewrite Hcases. now right.
  - destruct Hcases as [-> | ->]; [now left | now right].
Qed.

(** X8: when the diff request fails, by an exception of [requests.get] or by
    a 4xx or 5xx status, [main] reports the exception and exits with status 1
    at once: the file list is not requested, no GitHub client is constructed,
    the model is not called and nothing is posted. *)
Theorem main_stops_when_diff_fetch_fails :
  forall (env : Env) (args : Args) (h : Trace) (openai_client : OpenAIClient)
         (e : pyexc) (evs_diff : Trace),
    let fetching := EPrint (inbox_tray ++ lit " Fetching PR diff...") in
    env_OpenAI env (h ++ [banner_of args]) (args_openai_api_key args)
    = inr openai_client ->
    get_pr_diff env (args_github_token args) (args_repo args)
      (args_pr_number args)
      (h ++ [banner_of args; EOpenAI (args_openai_api_key args); fetching])
    = (Raise e, evs_diff) ->
    main env args h
    = (Exit 1,
       [ banner_of args;
         EOpenAI (args_openai_api_key args);
         fetching;
         ERequestsGet (pull_url (args_repo args) (args_pr_number args))
           (diff_headers (args_github_token args));
         EPrint (cross_mark ++ lit " Error during review: " ++ exc_str e);
         ETraceback e ]).
Proof.
  intros env args h openai_client e evs_diff fetching Hclient Hdiff.
  pose proof (get_pr_diff_events env (args_github_token args) (args_repo args)
                (args_pr_number args)
                (h ++ [banner_of args; EOpenAI (args_openai_api_key args);
                       fetching])) as Hev.
  rewrite Hdiff in Hev. simpl in Hev. subst evs_diff.
  rewrite main_run, Hclient.
  unfold fetch_and_review, bind at 1, print at 1. fold fetching.
  unfold bind at 1.
  replace ((h ++ [banner_of args; EOpenAI (args_openai_api_key args)])
             ++ [fetching])
    with (h ++ [banner_of args; EOpenAI (args_openai_api_key args); fetching])
    by (now rewrite <- app_assoc).
  rewrite Hdiff. reflexivity.
Qed.


(** X10: when the first choice of the completion has no content, so that
    [review_with_ai] returns [None], the prefix test itself raises
    [AttributeError]; the handler of [main] reports it and the run exits with
    status 1 without calling the publisher. *)
Theorem main_exits_when_review_has_no_content :
  forall (env : Env) (args : Args) (h : Trace) (openai_client : OpenAIClient)
         (evs1 : Trace),
    let started := [banner_of args; EOpenAI (args_openai_api_key args)] in
    env_OpenAI env (h ++ [banner_of args]) (args_openai_api_key args)
    = inr openai_client ->
    fetch_and_review env args openai_client (h ++ started) = (Ret None, evs1) ->
    main env args h
    = (Exit 1,
       started ++ evs1
       ++ [ EPrint (cross_mark
                      ++ lit " Error during review: 'NoneType' object has no attribute 'startswith'");
            ETraceback AttributeError_startswith ]).
Proof.
  intros env args h openai_client evs1 started Hclient Hreview.
  rewrite main_run, Hclient. fold started. rewrite Hreview.
  reflexivity.
Qed.

(** ** What a run of [main] requests *)

(** The totals of the requests of a run of [main]. *)
Lemma main_request_totals :
  forall (env : Env) (args : Args) (h : Trace),
    let out := fst (main env args h) in
    let evs := snd (main env args h) in
    ((get_requests evs <= 2)%nat
     /\ (length (chat_requests evs) <= 1)%nat
     /\ (github_clients evs <= 2)%nat
     /\ (length (issue_comment_calls evs) <= 1)%nat)
    /\ (exit_code out = 0 ->
        get_requests evs = 2%nat
        /\ length (chat_requests evs) = 1%nat
        /\ github_clients evs = 2%nat
        /\ length (issue_comment_calls evs) = 1%nat)
    /\ (issue_comment_calls evs <> [] ->
        get_requests evs = 2%nat /\ length (chat_requests evs) = 1%nat).
Proof.
  intros env args h. cbv zeta. rewrite main_run.
  destruct (env_OpenAI env (h ++ [banner_of args]) (args_openai_api_key args))
    as [e | openai_client].
  { cbn. repeat split; try lia; try discriminate; congruence. }
  set (started := [banner_of args; EOpenAI (args_openai_api_key args)]).
  assert (Hs : get_requests started = 0%nat /\ chat_requests started = []
               /\ github_clients started = 0%nat
               /\ issue_comment_calls started = [])
    by (repeat split; reflexivity).
  destruct Hs as (Hs1 & Hs2 & Hs3 & Hs4).
  destruct (fetch_and_review env args openai_client (h ++ started))
    as [o1 evs1] eqn:Hfetch.
  pose proof (fetch_and_review_emits_no_comment env args openai_client
                (h ++ started)) as [Hexit _].
  rewrite Hfetch in Hexit.
  destruct (fetch_and_review_requests _ _ _ _ _ _ Hfetch)
    as (Hg1 & Hc1 & Hi1 & Hcase).
  assert (Hh : forall e, get_requests (handler_events e) = 0%nat
                         /\ chat_requests (handler_events e) = []
                         /\ github_clients (handler_events e) = 0%nat
                         /\ issue_comment_calls (handler_events e) = [])
    by (intros; repeat split; reflexivity).
  destruct o1 as [review | e | code]; [| | contradiction Hexit].
  - destruct Hcase as [[_ [e He]] | (Hg2 & Hc2 & _ & Hchat)]; [discriminate|].
    destruct Hchat as (r1 & r2 & files & repo & n & pr & h1 & h2 & h3 & Hchat).
    destruct Hchat as (_ & _ & _ & _ & _ & _ & Hchat).
    destruct (publish_or_abort env args review (h ++ started ++ evs1))
      as [o2 evs2] eqn:Hpub.
    destruct (publish_or_abort_outcomes _ _ _ _ _ _ Hpub)
      as (Hg3 & Hc3 & Hgh3 & Hi3 & Ho & Hret & _).
    destruct Ho as [-> | [-> | [e ->]]]; cbn [fst snd exit_code];
      try destruct (Hh e) as (Hh1 & Hh2 & Hh3 & Hh4);
      rewrite ?get_requests_app, ?chat_requests_app, ?github_clients_app,
        ?issue_comment_calls_app, ?length_app, ?Hs1, ?Hs2, ?Hs3, ?Hs4, ?Hi1,
        ?Hg2, ?Hc2, ?Hchat, ?Hg3, ?Hc3, ?Hh1, ?Hh2, ?Hh3, ?Hh4;
      cbn [length app Nat.add];
      try (destruct (Hret eq_refl) as [Hr1 Hr2]; rewrite ?Hr1, ?Hr2);
      repeat split; try lia; try discriminate; try reflexivity.
  - destruct (Hh e) as (Hh1 & Hh2 & Hh3 & Hh4).
    destruct Hcase as [[Hchat _] | (_ & _ & [v Hv] & _)]; [|discriminate].
    cbn [fst snd exit_code].
    rewrite ?get_requests_app, ?chat_requests_app, ?github_clients_app,
      ?issue_comment_calls_app, ?length_app, ?Hs1, ?Hs2, ?Hs3, ?Hs4, ?Hi1,
      ?Hchat, ?Hh1, ?Hh2, ?Hh3, ?Hh4.
    cbn [length app Nat.add].
    repeat split; try lia; try discriminate; congruence.
Qed.

(** A call of [create_issue_comment] found in [l1 ++ l2] lies in [l2] when
    [l1] holds none. *)
Lemma comment_call_in_second_part (l1 l2 before after : Trace)
  (pr : PullRequest) (sent : pystr) (posted : bool) :
  issue_comment_calls l1 = [] ->
  l1 ++ l2 = before ++ ECreateIssueComment pr sent posted :: after ->
  exists mid : Trace,
    before = l1 ++ mid /\ l2 = mid ++ ECreateIssueComment pr sent posted :: after.
Proof.
  revert before. induction l1 as [|ev l1 IH]; intros before Hnone Heq.
  - exists before. now split.
  - destruct before as [|ev' before].
    + injection Heq as -> _. discriminate Hnone.
    + injection Heq as -> Heq.
      destruct (IH before) as (mid & -> & ->); [|exact Heq|].
      * destruct ev'; simpl in Hnone; first [exact Hnone | discriminate].
      * exists mid. now split.
Qed.

Lemma get_requests_prefix (mid rest : Trace) :
  get_requests (mid ++ rest) = 0%nat -> get_requests mid = 0%nat.
Proof. rewrite get_requests_app. lia. Qed.

Lemma chat_requests_prefix (mid rest : Trace) :
  chat_requests (mid ++ rest) = [] -> chat_requests mid = [].
Proof. rewrite chat_requests_app. intros H. now apply app_eq_nil in H. Qed.

Lemma issue_comment_calls_prefix (mid : Trace) (pr : PullRequest)
  (sent : pystr) (posted : bool) (after : Trace) :
  (length (issue_comment_calls
             (mid ++ ECreateIssueComment pr sent posted :: after)) <= 1)%nat ->
  issue_comment_calls mid = [].
Proof.
  rewrite issue_comment_calls_app, length_app. simpl.
  destruct (issue_comment_calls mid); [reflexivity | simpl; lia].
Qed.

(** In a run of [main], what precedes a call of [create_issue_comment]. *)
Lemma main_comment_after_requests (env : Env) (args : Args) (h : Trace)
  (before after : Trace) (pr : PullRequest) (sent : pystr) (posted : bool) :
  snd (main env args h)
  = before ++ ECreateIssueComment pr sent posted :: after ->
  get_requests before = 2%nat
  /\ length (chat_requests before) = 1%nat
  /\ issue_comment_calls before = [].
Proof.
  rewrite main_run.
  destruct (env_OpenAI env (h ++ [banner_of args]) (args_openai_api_key args))
    as [e | openai_client].
  { cbn [snd]. intros Heq.
    destruct (comment_call_in_second_part
                [banner_of args; EOpenAI (args_openai_api_key args)] []
                before after pr sent posted eq_refl) as (mid & _ & Hmid).
    - now rewrite app_nil_r.
    - destruct mid; discriminate Hmid. }
  set (started := [banner_of args; EOpenAI (args_openai_api_key args)]).
  destruct (fetch_and_review env args openai_client (h ++ started))
    as [o1 evs1] eqn:Hfetch.
  pose proof (fetch_and_review_emits_no_comment env args openai_client
                (h ++ started)) as [Hexit _].
  rewrite Hfetch in Hexit.
  destruct (fetch_and_review_requests _ _ _ _ _ _ Hfetch)
    as (_ & _ & Hi1 & Hcase).
  assert (Hnone : issue_comment_calls (started ++ evs1) = [])
    by (rewrite issue_comment_calls_app, Hi1; reflexivity).
  assert (Hsplit : forall l2,
             (get_requests l2 = 0%nat) -> chat_requests l2 = [] ->
             (length (issue_comment_calls l2) <= 1)%nat ->
             get_requests evs1 = 2%nat ->
             length (chat_requests evs1) = 1%nat ->
             started ++ evs1 ++ l2
             = before ++ ECreateIssueComment pr sent posted :: after ->
             get_requests before = 2%nat
             /\ length (chat_requests before) = 1%nat
             /\ issue_comment_calls before = []).
  { intros l2 Hg Hc Hi Hg1 Hc1 Heq. rewrite app_assoc in Heq.
    destruct (comment_call_in_second_part _ _ _ _ _ _ _ Hnone Heq)
      as (mid & -> & ->).
    rewrite !get_requests_app, !chat_requests_app, !issue_comment_calls_app,
      !length_app.
    rewrite (get_requests_prefix _ _ Hg), (chat_requests_prefix _ _ Hc),
      (issue_comment_calls_prefix _ _ _ _ _ Hi), Hi1, Hg1.
    cbn. rewrite Hc1. repeat split; lia. }
  assert (Hh : forall e l2,
             get_requests l2 = 0%nat -> chat_requests l2 = [] ->
             (length (issue_comment_calls l2) <= 1)%nat ->
             get_requests (l2 ++ handler_events e) = 0%nat
             /\ chat_requests (l2 ++ handler_events e) = []
             /\ (length (issue_comment_calls (l2 ++ handler_events e)) <= 1)%nat).
  { intros e l2 Hg Hc Hi.
    rewrite get_requests_app, chat_requests_app, issue_comment_calls_app,
      length_app, Hg, Hc. cbn. repeat split; lia. }
  destruct o1 as [review | e | code]; [| | contradiction Hexit].
  - destruct Hcase as [[_ [e He]] | (Hg2 & _ & _ & Hchat)]; [discriminate|].
    destruct Hchat as (r1 & r2 & files & repo & n & pr' & h1 & h2 & h3 & Hchat).
    destruct Hchat as (_ & _ & _ & _ & _ & _ & Hchat).
    assert (Hc1 : length (chat_requests evs1) = 1%nat) by now rewrite Hchat.
    destruct (publish_or_abort env args review (h ++ started ++ evs1))
      as [o2 evs2] eqn:Hpub.
    destruct (publish_or_abort_outcomes _ _ _ _ _ _ Hpub)
      as (Hg3 & Hc3 & _ & Hi3 & Ho & _).
    destruct Ho as [-> | [-> | [e ->]]]; cbn [snd]; intros Heq.
    + now apply (Hsplit evs2).
    + now apply (Hsplit evs2).
    + destruct (Hh e evs2 Hg3 Hc3 Hi3) as (Hg4 & Hc4 & Hi4).
      now apply (Hsplit (evs2 ++ handler_events e)).
  - cbn [snd]. intros Heq. rewrite app_assoc in Heq.
    destruct (comment_call_in_second_part _ _ _ _ _ _ _ Hnone Heq)
      as (mid & _ & Hmid).
    destruct mid as [|x [|y mid]]; try discriminate Hmid.
    destruct mid; discriminate Hmid.
Qed.

(** X11: after the command line is parsed, [main] retries nothing: a run
    sends at most two GET requests and one chat request, constructs at most
    two GitHub clients and calls [create_issue_comment] at most once; a run
    that exits with status 0 did each of these exactly that often; and in the
    order of the events, every call of [create_issue_comment] comes after
    both GET requests and the chat request. *)
Theorem main_request_counts :
  forall (env : Env) (args : Args) (h : Trace),
    let out := fst (main env args h) in
    let evs := snd (main env args h) in
    ((get_requests evs <= 2)%nat
     /\ (length (chat_requests evs) <= 1)%nat
     /\ (github_clients evs <= 2)%nat
     /\ (length (issue_comment_calls evs) <= 1)%nat)
    /\ (exit_code out = 0 ->
        get_requests evs = 2%nat
        /\ length (chat_requests evs) = 1%nat
        /\ github_clients evs = 2%nat
        /\ length (issue_comment_calls evs) = 1%nat)
    /\ (issue_comment_calls evs <> [] ->
        get_requests evs = 2%nat /\ length (chat_requests evs) = 1%nat)
    /\ (forall (before after : Trace) (pr : PullRequest) (sent : pystr)
               (posted : bool),
        evs = before ++ ECreateIssueComment pr sent posted :: after ->
        get_requests before = 2%nat
        /\ length (chat_requests before) = 1%nat
        /\ issue_comment_calls before = []).
Proof.
  intros env args h out evs.
  destruct (main_request_totals env args h) as (Hmax & Hzero & Hcalls).
  split; [exact Hmax|]. split; [exact Hzero|]. split; [exact Hcalls|].
  intros before after pr sent posted Heq.
  exact (main_comment_after_requests env args h before after pr sent posted Heq).
Qed.

(** X12: whenever a run of [main] calls the model it does so with the
    configured model name, temperature 0.3, at most 2000 tokens, the fixed
    system message and one user message: the prompt built from the text of a
    diff response, the parsed body of a files response, and the title and the
    body (the empty string for [None]) of a pull request looked up under
    [int(args.pr_number)]. *)
Theorem main_sends_prompt_of_fetched_data :
  forall (env : Env) (args : Args) (h : Trace),
    chat_requests (snd (main env args h)) = []
    \/ exists (openai_client : OpenAIClient) (r1 r2 : Response)
              (files : list ChangedFile) (repo : Repository) (n : Z)
              (pr : PullRequest) (h0 h1 h2 h3 : Trace),
        env_OpenAI env h0 (args_openai_api_key args) = inr openai_client
        /\ env_requests_get env h1
             (pull_url (args_repo args) (args_pr_number args))
             (diff_headers (args_github_token args)) = inr r1
        /\ ~ (400 <= status_code r1 < 600)
        /\ env_requests_get env h2
             (files_url (args_repo args) (args_pr_number args))
             (files_headers (args_github_token args)) = inr r2
        /\ json r2 = inr files
        /\ env_int env (args_pr_number args) = inr n
        /\ env_get_pull env h3 repo n = inr pr
        /\ chat_requests (snd (main env args h))
           = [ EChatCreate openai_client (args_openai_model args)
                 [ system_message;
                   user_message
                     (create_review_prompt (text r1) files
                        (Some (title pr)) (Some (str_or (body pr) []))) ]
                 (3 # 10) 2000 ].
Proof.
  intros env args h. rewrite main_run.
  destruct (env_OpenAI env (h ++ [banner_of args]) (args_openai_api_key args))
    as [e | openai_client] eqn:Hclient; [now left|].
  set (started := [banner_of args; EOpenAI (args_openai_api_key args)]).
  destruct (fetch_and_review env args openai_client (h ++ started))
    as [o1 evs1] eqn:Hfetch.
  pose proof (fetch_and_review_emits_no_comment env args openai_client
                (h ++ started)) as [Hexit _].
  rewrite Hfetch in Hexit.
  destruct (fetch_and_review_requests _ _ _ _ _ _ Hfetch)
    as (_ & _ & _ & [[Hnone [e He]] | (_ & _ & [v Hv] & Hchat)]).
  - left. subst o1. cbn [snd].
    rewrite !chat_requests_app, Hnone. reflexivity.
  - right. subst o1.
    destruct Hchat as (r1 & r2 & files & repo & n & pr & h1 & h2 & h3 & H1
                       & Hs1 & H2 & Hj & Hn & Hp & Hchat).
    exists openai_client, r1, r2, files, repo, n, pr,
      (h ++ [banner_of args]), h1, h2, h3.
    repeat (split; [assumption|]).
    destruct (publish_or_abort env args v (h ++ started ++ evs1))
      as [o2 evs2] eqn:Hpub.
    destruct (publish_or_abort_outcomes _ _ _ _ _ _ Hpub)
      as (_ & Hc3 & _ & _ & [-> | [-> | [e ->]]] & _); cbn [snd];
      rewrite !chat_requests_app, Hchat, Hc3; reflexivity.
Qed.

(** ** Further runs on concrete inputs *)

(** X1, witness: a readable file and a missing one. *)
Lemma get_file_contents_never_raises_witness :
  get_file_contents one_file_system (lit "README.md") []
  = (Ret (lit "# Widgets"), [])
  /\ get_file_contents one_file_system (lit "missing.py") []
     = (Ret (lit "Error reading file: [Errno 2] No such file or directory: 'missing.py'"),
        []).
Proof.
  split.
  - destruct (get_file_contents_never_raises one_file_system
                (lit "README.md") []) as (Hok & _).
    apply Hok. reflexivity.
  - destruct (get_file_contents_never_raises one_file_system
                (lit "missing.py") []) as (_ & Herr & _).
    destruct (Herr FileNotFoundError eq_refl) as [Hrun _]. exact Hrun.
Defined.

(** X3, witness: 21 files, two different last files. *)
Lemma create_review_prompt_ignores_files_after_20_witness :
  let f := {| filename := lit "a.py"; status := lit "added";
              additions := 1; deletions := 0 |} in
  let g := {| filename := lit "secret.py"; status := lit "removed";
              additions := 0; deletions := 9 |} in
  create_review_prompt (lit "+x") (repeat f 20 ++ [f]) None None
  = create_review_prompt (lit "+x") (repeat f 20 ++ [g]) None None.
Proof.
  intros f g.
  apply (create_review_prompt_ignores_files_after_20
           (lit "+x") (repeat f 20 ++ [f]) (repeat f 20 ++ [g]) None None);
    reflexivity.
Defined.

(** X4, witness: the three sample files give three lines. *)
Lemma file_summary_line_count_witness :
  S (newlines (file_summary sample_files)) = 3%nat.
Proof.
  apply (file_summary_line_count sample_files).
  - discriminate.
  - repeat constructor.
Defined.

(** X5, witness: a completion without choices. *)
Lemma review_with_ai_without_choice_or_content_witness :
  fst (review_with_ai env_no_choice {| api_key := lit "sk-test" |}
         (lit "gpt-4-turbo-preview") (lit "prompt") [])
  = Ret (Some (lit "Error during AI review: list index out of range")).
Proof.
  destruct (review_with_ai_without_choice_or_content env_no_choice
              {| api_key := lit "sk-test" |} (lit "gpt-4-turbo-preview")
              (lit "prompt") []) as [Hempty _].
  apply (Hempty {| choices := [] |}); reflexivity.
Defined.

(** X8, witness: the diff request is answered 404. *)
Lemma main_stops_when_diff_fetch_fails_witness :
  exit_code (fst (main env_not_found sample_args [])) = 1
  /\ get_requests (snd (main env_not_found sample_args [])) = 1%nat
  /\ chat_requests (snd (main env_not_found sample_args [])) = [].
Proof.
  rewrite (main_stops_when_diff_fetch_fails env_not_found sample_args []
             {| api_key := lit "sk-test" |}
             (HTTPError (lit " Client Error: ")
                (sample_response 404 (lit "Not Found")))
             [ERequestsGet (pull_url (lit "acme/widgets") (lit "42"))
                (diff_headers (lit "ghp_test"))]
             eq_refl eq_refl).
  repeat split.
Defined.


(** X10, witness: the first choice has no content. *)
Lemma main_exits_when_review_has_no_content_witness :
  exit_code (fst (main env_no_content sample_args [])) = 1
  /\ comments_posted (snd (main env_no_content sample_args [])) = []
  /\ github_clients (snd (main env_no_content sample_args [])) = 1%nat.
Proof.
  rewrite (main_exits_when_review_has_no_content env_no_content sample_args []
             {| api_key := lit "sk-test" |}
             (snd (fetch_and_review env_no_content sample_args
                     {| api_key := lit "sk-test" |}
                     [banner_of sample_args; EOpenAI (lit "sk-test")]))
             eq_refl).
  - vm_compute. repeat split.
  - vm_compute. reflexivity.
Defined.

(** ** The target of the comment *)

(** X13: every comment that [post_pr_comment] attempts carries the wrapped
    review and goes to the pull request that [get_pull] gave for
    [int(pr_number)] in the repository that [get_repo] gave for
    [repo_full_name], through a client made from [github_token]; the comment
    exists exactly when [post_pr_comment] returns. *)
Theorem post_pr_comment_targets_looked_up_pull :
  forall (env : Env) (github_token repo_full_name pr_number review_body : pystr)
         (h : Trace) (pr : PullRequest) (sent : pystr) (posted : bool),
    In (ECreateIssueComment pr sent posted)
       (snd (post_pr_comment env github_token repo_full_name pr_number
               review_body h)) ->
    sent = comment_body_of review_body
    /\ (posted = true
        <-> fst (post_pr_comment env github_token repo_full_name pr_number
                   review_body h) = Ret tt)
    /\ exists (g : GithubClient) (repo : Repository) (n : Z) (h1 h2 h3 : Trace),
        env_Github env h1 github_token = inr g
        /\ env_get_repo env h2 g repo_full_name = inr repo
        /\ env_int env pr_number = inr n
        /\ env_get_pull env h3 repo n = inr pr.
Proof.
  intros env github_token repo_full_name pr_number review_body h pr sent posted.
  unfold post_pr_comment, bind, Github, get_repo, get_pull, int, call,
    create_issue_comment, print, raise, ret.
  repeat match goal with
         | |- context [match ?x with inl _ => _ | inr _ => _ end] =>
             destruct x eqn:?
         end;
    cbn [fst snd app In];
    intros Hin;
    repeat match type of Hin with
           | _ \/ _ => destruct Hin as [Hin | Hin]
           | False => contradiction Hin
           | _ = _ => first [discriminate Hin | injection Hin as <- <- <-]
           end.
  all: split; [reflexivity|].
  all: split; [split; first [reflexivity | discriminate]|].
  all: do 6 eexists; repeat split; eassumption.
Qed.

(** X13, witness: the publisher in the environment where everything works. *)
Lemma post_pr_comment_targets_looked_up_pull_witness :
  exists (g : GithubClient) (repo : Repository) (n : Z) (h1 h2 h3 : Trace),
    env_Github env_all_ok h1 (lit "ghp_test") = inr g
    /\ env_get_repo env_all_ok h2 g (lit "acme/widgets") = inr repo
    /\ env_int env_all_ok (lit "42") = inr n
    /\ env_get_pull env_all_ok h3 repo n
       = inr {| number := 42; title := lit "Add widget"; body := None |}.
Proof.
  apply (post_pr_comment_targets_looked_up_pull env_all_ok
           (lit "ghp_test") (lit "acme/widgets") (lit "42") (lit "LGTM") []
           {| number := 42; title := lit "Add widget"; body := None |}
           (comment_body_of (lit "LGTM")) true).
  vm_compute. tauto.
Defined.
